(** * The incremental order pipeline of [order_processing_incremental.py]

    A shallow embedding of the Airflow DAG [order_processing_incremental]:
    the seven tasks, the SQL they submit to the warehouse and the Python
    callable of the archiver, followed by the properties of the pipeline.

    Conventions of the embedding.
    - A table is the list of its rows (a bag: duplicates are kept).
    - A nullable column is an [option]; SQL's NULL is [None].
    - A TIMESTAMP is the number of microseconds since the epoch (UTC), a [Z].
    - A FLOAT column is a FLOAT64, an IEEE 754 binary64 number: a primitive
      [float], whose operations round as the processor's do.
    - The bucket is a finite map from object names to objects. *)

From Stdlib Require Import ZArith Ascii Floats.
From stdpp Require Import gmap strings list fin_maps.

Local Open Scope string_scope.
Local Open Scope Z_scope.
Local Open Scope list_scope.

(** ** Configuration (lines 10-14 of the DAG file) *)

Definition PROJECT_ID : string := "ecommdatapipeline".
Definition DATASET_ID : string := "ecommerce_data".
Definition GCS_BUCKET : string := "e_comm_de".
Definition GCS_ORDER_PREFIX : string := "landing/orders/".

(** ** SQL scalar functions *)

Module Sql.

Definition TIMESTAMP := Z.

Definition micros_per_hour : Z := 3600000000.
Definition micros_per_day : Z := 24 * micros_per_hour.

(** [DATE(ts)]: the UTC day of a timestamp, as days since the epoch. *)
Definition DATE (ts : TIMESTAMP) : Z := ts `div` micros_per_day.

(** [EXTRACT(HOUR FROM ts)]. *)
Definition EXTRACT_HOUR (ts : TIMESTAMP) : Z := (ts `div` micros_per_hour) `mod` 24.

(** [TIMESTAMP_TRUNC(ts, HOUR)]. *)
Definition TIMESTAMP_TRUNC_HOUR (ts : TIMESTAMP) : TIMESTAMP :=
  micros_per_hour * (ts `div` micros_per_hour).

(** [CURRENT_DATE()] when the clock of the warehouse reads [now]. *)
Definition CURRENT_DATE (now : TIMESTAMP) : Z := DATE now.

(** [COALESCE(x, d)]. *)
Definition COALESCE {A} (x : option A) (d : A) : A := default d x.

(** The coercion of an INTEGER to FLOAT64: the nearest binary64 number,
    ties to even. *)
Definition of_INT64 (n : Z) : float := SF2Prim (binary_normalize prec emax n 0 false).

(** The FLOAT64 literal [0.01]: the binary64 number nearest to 1/100, which
    is 5764607523034235 / 2^59. *)
Definition cent : float := 0x1.47ae147ae147bp-7%float.

(** [x * y] for an INTEGER and a FLOAT: the integer is coerced and the
    product is that of FLOAT64; NULL when an operand is NULL. *)
Definition times (x : option Z) (y : option float) : option float :=
  match x, y with
  | Some n, Some q => Some (of_INT64 n * q)%float
  | _, _ => None
  end.

(** [SUM(e)] on FLOAT64: NULL inputs are skipped; NULL when no input is
    left, in particular over no rows at all. The additions are those of
    FLOAT64, taken in the order of the rows. *)
Definition SUM (xs : list (option float)) : option float :=
  match omap id xs with
  | [] => None
  | q :: qs => Some (foldl PrimFloat.add q qs)
  end.

(** [AVG(e)] on FLOAT64: the sum of the non-NULL inputs over their number. *)
Definition AVG (xs : list (option float)) : option float :=
  match omap id xs with
  | [] => None
  | q :: qs => Some (foldl PrimFloat.add q qs / of_INT64 (Z.of_nat (length (q :: qs))))%float
  end.

(** [COUNT(DISTINCT e)] over a non-nullable column. *)
Definition COUNT_DISTINCT `{EqDecision A} (xs : list A) : Z :=
  Z.of_nat (length (remove_dups xs)).

(** [ROUND(x, 2)]: NULL on NULL. The rounding of a FLOAT64 to two decimal
    places is the warehouse's own function, [round2]. *)
Definition ROUND2 (round2 : float → float) (x : option float) : option float :=
  round2 <$> x.

(** [x IN (...)]: NULL (here: not true) when [x] is NULL. *)
Definition IN (x : option string) (vs : list string) : bool :=
  match x with
  | Some s => bool_decide (s ∈ vs)
  | None => false
  end.

(** [l LEFT JOIN r ON on_]: the rows of [r] matching a row of [l], or a
    single NULL row when none matches. *)
Definition left_matches {B} (on_ : B → Prop) `{∀ b, Decision (on_ b)}
    (r : list B) : list (option B) :=
  match filter on_ r with
  | [] => [None]
  | ms => Some <$> ms
  end.

(** [LEFT JOIN UNNEST(arr)]: the elements of the array, or a single NULL
    element when the array is empty. *)
Definition left_unnest {B} (arr : list B) : list (option B) :=
  match arr with
  | [] => [None]
  | _ => Some <$> arr
  end.

End Sql.
Import Sql.

(** ** Data model *)

(** The schema of [staging_orders] (lines 56-74). Columns without a mode
    are NULLABLE; [items] is REPEATED. *)

Record LineItem := {
  product_id : option string;
  quantity : option Z;
  unit_price : option float;
}.

Record ShippingAddress := {
  street : option string;
  city : option string;
  state : option string;
  zipcode : option string;
  country : option string;
}.

Record Order := {
  order_id : string;
  customer_id : string;
  order_timestamp : TIMESTAMP;
  items : list LineItem;
  total_amount : float;
  payment_status : option string;
  shipping_address : option ShippingAddress;
}.

(** The columns of the dimension tables that the pipeline reads. *)

Record Customer := {
  c_customer_id : string;
  c_customer_tier : option string;
}.

Record Product := {
  p_product_id : string;
  p_product_name : option string;
  p_category : option string;
}.

(** A row of [fact_orders], with the columns of the INSERT at lines 133-135. *)

Record FactOrderLine := {
  f_order_id : string;
  f_customer_id : string;
  f_customer_tier : string;
  f_order_timestamp : TIMESTAMP;
  f_order_date : Z;
  f_order_hour : Z;
  f_product_id : option string;
  f_product_name : option string;
  f_category : option string;
  f_quantity : option Z;
  f_unit_price : option float;
  f_line_total : option float;
  f_total_amount : float;
  f_payment_status : option string;
  f_city : option string;
  f_state : option string;
  f_country : option string;
  f_region : string;
}.

(** ** Task 5: [transform_to_fact] (lines 127-174) *)

(** The CASE expression of lines 154-159. *)
Definition region (st : option string) : string :=
  if IN st ["CA"; "OR"; "WA"] then "West"
  else if IN st ["NY"; "NJ"; "PA"] then "East"
  else if IN st ["TX"; "AZ"; "NM"] then "South"
  else "Other".

(** The SELECT list of lines 137-159 on one joined row. *)
Definition fact_row (o : Order) (item : option LineItem)
    (c : option Customer) (p : option Product) : FactOrderLine :=
  {| f_order_id := order_id o;
     f_customer_id := customer_id o;
     f_customer_tier := COALESCE (c ≫= c_customer_tier) "bronze";
     f_order_timestamp := order_timestamp o;
     f_order_date := DATE (order_timestamp o);
     f_order_hour := EXTRACT_HOUR (order_timestamp o);
     f_product_id := item ≫= product_id;
     f_product_name := p ≫= p_product_name;
     f_category := p ≫= p_category;
     f_quantity := item ≫= quantity;
     f_unit_price := item ≫= unit_price;
     f_line_total := times (item ≫= quantity) (item ≫= unit_price);
     f_total_amount := total_amount o;
     f_payment_status := payment_status o;
     f_city := shipping_address o ≫= city;
     f_state := shipping_address o ≫= state;
     f_country := shipping_address o ≫= country;
     f_region := region (shipping_address o ≫= state) |}.

(** The three LEFT JOINs of lines 160-163 on one staged row. *)
Definition joined_rows (dim_customers : list Customer) (dim_products : list Product)
    (o : Order) : list FactOrderLine :=
  item ← left_unnest (items o);
  c ← left_matches (λ c, customer_id o = c_customer_id c) dim_customers;
  p ← left_matches (λ p, item ≫= product_id = Some (p_product_id p)) dim_products;
  [fact_row o item c p].

(** The WHERE clause of lines 164-168. *)
Definition to_merge (now : TIMESTAMP) (fact_orders : list FactOrderLine)
    (o : Order) : Prop :=
  DATE (order_timestamp o) = CURRENT_DATE now
  ∧ order_id o ∉ f_order_id <$> fact_orders.

#[global] Instance to_merge_dec now fact_orders o : Decision (to_merge now fact_orders o).
Proof. unfold to_merge. apply _. Defined.

(** The rows that the INSERT ... SELECT adds to [fact_orders]. *)
Definition fact_rows_inserted (now : TIMESTAMP) (staging_orders : list Order)
    (dim_customers : list Customer) (dim_products : list Product)
    (fact_orders : list FactOrderLine) : list FactOrderLine :=
  o ← filter (to_merge now fact_orders) staging_orders;
  joined_rows dim_customers dim_products o.

(** The table [fact_orders] after the task. *)
Definition transform_to_fact (now : TIMESTAMP) (staging_orders : list Order)
    (dim_customers : list Customer) (dim_products : list Product)
    (fact_orders : list FactOrderLine) : list FactOrderLine :=
  fact_orders ++ fact_rows_inserted now staging_orders dim_customers dim_products fact_orders.

(** ** Task 3: [check_duplicates] (lines 79-93) *)

(** The rows of the current window: [WHERE DATE(order_timestamp) = CURRENT_DATE()]. *)
Definition in_window (now : TIMESTAMP) (o : Order) : Prop :=
  DATE (order_timestamp o) = CURRENT_DATE now.

#[global] Instance in_window_dec now o : Decision (in_window now o).
Proof. unfold in_window. apply _. Defined.

(** [COUNT( * )] of the group of [oid]. *)
Definition cnt (oid : string) (rows : list Order) : Z :=
  Z.of_nat (length (filter (λ o, order_id o = oid) rows)).

(** The inner query: [GROUP BY order_id HAVING cnt > 1]. *)
Definition duplicate_groups (now : TIMESTAMP) (staging_orders : list Order)
    : list (string * Z) :=
  let rows := filter (in_window now) staging_orders in
  filter (λ g, 1 < g.2)
    ((λ oid, (oid, cnt oid rows)) <$> remove_dups (order_id <$> rows)).

(** [SELECT COUNT( * ) = 0]; the check operator fails the task when the
    value of the first row is false. The result is the success of the task. *)
Definition check_duplicates (now : TIMESTAMP) (staging_orders : list Order) : bool :=
  bool_decide (Z.of_nat (length (duplicate_groups now staging_orders)) = 0).

(** ** Task 4: [check_amount_mismatch] (lines 96-124) *)

(** A piece of a CONCAT: a literal or a number cast to a string. *)
Inductive piece :=
  | Lit (s : string)
  | Num (q : float).

Record QualityFinding := {
  check_id : string;
  check_timestamp : TIMESTAMP;
  check_type : string;
  q_order_id : string;
  issue_description : list piece;
  severity : string;
}.

(** Line 114: [ROUND((SELECT SUM(quantity * unit_price) FROM UNNEST(items)), 2)];
    [round2] is the warehouse's [ROUND(x, 2)]. *)
Definition calculated_total (round2 : float → float) (o : Order) : option float :=
  ROUND2 round2 (SUM ((λ it, times (quantity it) (unit_price it)) <$> items o)).

(** Line 118: [WHERE ABS(calculated_total - total_amount) > 0.01], a test
    on FLOAT64: the subtraction rounds, and the literal is [cent]. A NULL
    condition does not select the row. *)
Definition mismatch (round2 : float → float) (o : Order) : Prop :=
  match calculated_total round2 o with
  | Some c => (cent <? abs (c - total_amount o))%float = true
  | None => False
  end.

#[global] Instance mismatch_dec round2 o : Decision (mismatch round2 o).
Proof. unfold mismatch. destruct (calculated_total round2 o); apply _. Defined.

(** The SELECT list of lines 104-109 on a selected row; [uuid] is the value
    of [GENERATE_UUID()] for that row. The calculated total of a selected
    row is not NULL, so the default below is never used. *)
Definition finding (now : TIMESTAMP) (uuid : string) (round2 : float → float)
    (o : Order) : QualityFinding :=
  {| check_id := uuid;
     check_timestamp := now;
     check_type := "amount_mismatch";
     q_order_id := order_id o;
     issue_description :=
       [Lit "Calculated: "; Num (default 0%float (calculated_total round2 o));
        Lit " vs Recorded: "; Num (total_amount o)];
     severity := "warning" |}.

(** The rows that the INSERT ... SELECT adds to [data_quality_checks];
    [uuids i] is the identifier generated for the [i]-th selected row. *)
Definition findings_inserted (now : TIMESTAMP) (uuids : nat → string)
    (round2 : float → float) (staging_orders : list Order) : list QualityFinding :=
  imap (λ i o, finding now (uuids i) round2 o)
    (filter (mismatch round2) (filter (in_window now) staging_orders)).

(** The table [data_quality_checks] after the task; the job has no failing
    path of its own. *)
Definition check_amount_mismatch (now : TIMESTAMP) (uuids : nat → string)
    (round2 : float → float) (staging_orders : list Order)
    (data_quality_checks : list QualityFinding) : list QualityFinding :=
  data_quality_checks ++ findings_inserted now uuids round2 staging_orders.

(** ** Task 6: [update_hourly_agg] (lines 177-210) *)

Record HourlyMetric := {
  metric_hour : TIMESTAMP;
  total_orders : Z;
  total_revenue : option float;
  avg_order_value : option float;
  unique_customers : Z;
  updated_at : TIMESTAMP;
}.

(** A row of the source [S] of the MERGE. *)
Record HourlySource := {
  s_metric_hour : TIMESTAMP;
  s_total_orders : Z;
  s_total_revenue : option float;
  s_avg_order_value : option float;
  s_unique_customers : Z;
}.

Definition fact_in_window (now : TIMESTAMP) (f : FactOrderLine) : Prop :=
  DATE (f_order_timestamp f) = CURRENT_DATE now.

#[global] Instance fact_in_window_dec now f : Decision (fact_in_window now f).
Proof. unfold fact_in_window. apply _. Defined.

(** The rows of one group of [GROUP BY metric_hour]. *)
Definition hour_group (h : TIMESTAMP) (rows : list FactOrderLine) : list FactOrderLine :=
  filter (λ f, TIMESTAMP_TRUNC_HOUR (f_order_timestamp f) = h) rows.

(** The SELECT list of lines 185-189 on the group of hour [h]. *)
Definition hourly_source (h : TIMESTAMP) (group : list FactOrderLine) : HourlySource :=
  {| s_metric_hour := h;
     s_total_orders := COUNT_DISTINCT (f_order_id <$> group);
     s_total_revenue := SUM (Some ∘ f_total_amount <$> group);
     s_avg_order_value := AVG (Some ∘ f_total_amount <$> group);
     s_unique_customers := COUNT_DISTINCT (f_customer_id <$> group) |}.

(** The subquery [S] of lines 183-193. *)
Definition hourly_sources (now : TIMESTAMP) (fact_orders : list FactOrderLine)
    : list HourlySource :=
  let rows := filter (fact_in_window now) fact_orders in
  (λ h, hourly_source h (hour_group h rows))
    <$> remove_dups (TIMESTAMP_TRUNC_HOUR ∘ f_order_timestamp <$> rows).

(** WHEN MATCHED THEN UPDATE SET ... (lines 195-201). *)
Definition matched_update (now : TIMESTAMP) (s : HourlySource) (t : HourlyMetric)
    : HourlyMetric :=
  {| metric_hour := metric_hour t;
     total_orders := s_total_orders s;
     total_revenue := s_total_revenue s;
     avg_order_value := s_avg_order_value s;
     unique_customers := s_unique_customers s;
     updated_at := now |}.

(** WHEN NOT MATCHED THEN INSERT ... (lines 202-204). *)
Definition not_matched_insert (now : TIMESTAMP) (s : HourlySource) : HourlyMetric :=
  {| metric_hour := s_metric_hour s;
     total_orders := s_total_orders s;
     total_revenue := s_total_revenue s;
     avg_order_value := s_avg_order_value s;
     unique_customers := s_unique_customers s;
     updated_at := now |}.

(** [MERGE T USING S ON T.metric_hour = S.metric_hour]. The hours of [S] are
    those of a GROUP BY, so a row of [T] matches at most one row of [S]. *)
Definition merge_hourly (now : TIMESTAMP) (S : list HourlySource)
    (T : list HourlyMetric) : list HourlyMetric :=
  ((λ t, match list_find (λ s, metric_hour t = s_metric_hour s) S with
         | Some (_, s) => matched_update now s t
         | None => t
         end) <$> T)
  ++ (not_matched_insert now
        <$> filter (λ s, s_metric_hour s ∉ metric_hour <$> T) S).

(** The table [agg_hourly_metrics] after the task. *)
Definition update_hourly_agg (now : TIMESTAMP) (fact_orders : list FactOrderLine)
    (agg_hourly_metrics : list HourlyMetric) : list HourlyMetric :=
  merge_hourly now (hourly_sources now fact_orders) agg_hourly_metrics.

(** ** Python string methods used by the archiver *)

Module Py.

(** [s.startswith(p)]. *)
Definition startswith (s p : string) : bool := String.prefix p s.

(** [s.endswith(suffix)]. *)
Definition endswith (s suffix : string) : bool :=
  let n := String.length s in
  let m := String.length suffix in
  bool_decide (m ≤ n)%nat && bool_decide (String.substring (n - m) m s = suffix).

(** [s.replace(old, new)] for a non-empty [old]: every occurrence of [old],
    scanning from the left without overlap. [skip] counts the characters of
    an occurrence that are still to be dropped. *)
Fixpoint replace_from (old new : string) (skip : nat) (s : string) : string :=
  match s with
  | EmptyString => EmptyString
  | String a s' =>
      match skip with
      | S k => replace_from old new k s'
      | O =>
          if String.prefix old s
          then new +:+ replace_from old new (String.length old - 1) s'
          else String a (replace_from old new 0 s')
      end
  end.

Definition replace (s old new : string) : string := replace_from old new 0 s.

End Py.

(** A wildcard pattern of a load job: ["*"] stands for any run of characters. *)
Fixpoint wildcard (pattern s : string) : bool :=
  match pattern with
  | EmptyString => bool_decide (s = EmptyString)
  | String a pattern' =>
      if bool_decide (a = "*"%char)
      then (fix star (s : string) : bool :=
              wildcard pattern' s
              || match s with
                 | EmptyString => false
                 | String _ s' => star s'
                 end) s
      else match s with
           | EmptyString => false
           | String b s' => bool_decide (a = b) && wildcard pattern' s'
           end
  end.

(** ** The bucket *)

(** An object of the bucket, as a load job reads it against the schema of
    lines 56-74: its records, or nothing when a record violates the schema. *)
Record Blob := {
  records : option (list Order);
}.

Abbreviation Bucket := (gmap string Blob).

(** [bucket.list_blobs(prefix=...)]. *)
Definition list_blobs (prefix : string) (bucket : Bucket) : list (string * Blob) :=
  filter (λ nb, Py.startswith nb.1 prefix = true) (map_to_list bucket).

(** ** Task 1: [check_new_files] (lines 36-45) *)

(** A poke of the sensor: true when some object has the prefix. *)
Definition check_new_files (bucket : Bucket) : bool :=
  match list_blobs GCS_ORDER_PREFIX bucket with
  | [] => false
  | _ => true
  end.

(** ** Task 2: [load_to_staging] (lines 48-76) *)

(** Line 51: [source_objects]. *)
Definition source_objects : string := GCS_ORDER_PREFIX +:+ "*.json".

(** The objects that the load job reads. *)
Definition load_set (bucket : Bucket) : list (string * Blob) :=
  filter (λ nb, wildcard source_objects nb.1 = true) (map_to_list bucket).

(** WRITE_APPEND of the records of the load set; the job fails as a whole
    when a record violates the schema. Whether a job whose pattern matches
    no object fails is decided by the warehouse: [empty_ok]. *)
Definition load_to_staging (empty_ok : bool) (bucket : Bucket)
    (staging_orders : list Order) : option (list Order) :=
  match load_set bucket with
  | [] => if empty_ok then Some staging_orders else None
  | objs => rows ← mapM (λ nb, records nb.2) objs; Some (staging_orders ++ concat rows)%list
  end.

(** ** Task 7: [archive_files] (lines 213-227) *)

(** What the storage service does with one rename, which is a copy to the
    new name followed by the deletion of the old one: both requests are
    served, or the copy raises (the new name is refused, the object has been
    taken by another run, the service is out), or the copy is made and the
    deletion raises. *)
Inductive rename_outcome :=
  | renamed
  | copy_raises
  | delete_raises.

(** [bucket.rename_blob(blob, new_name)] with the outcome [served] of the
    service: the bucket it leaves, and whether the call returned. The copy
    raises in any case when the object no longer exists. *)
Definition rename_blob (served : rename_outcome) (name new_name : string)
    (bucket : Bucket) : Bucket * bool :=
  match bucket !! name with
  | Some blob =>
      match served with
      | renamed => (delete name (<[new_name := blob]> bucket), true)
      | copy_raises => (bucket, false)
      | delete_raises => (<[new_name := blob]> bucket, false)
      end
  | None => (bucket, false)
  end.

(** Line 225. *)
Definition archive_name (timestamp name : string) : string :=
  Py.replace name "landing/" ("archive/" +:+ timestamp +:+ "/").

(** The loop of lines 223-227 over a listing; [service name] is the outcome
    of the rename of the object [name]. The loop stops at the first rename
    that raises, and the flag tells whether the callable returned. *)
Fixpoint archive_loop (timestamp : string) (service : string → rename_outcome)
    (blobs : list (string * Blob)) (bucket : Bucket) : Bucket * bool :=
  match blobs with
  | [] => (bucket, true)
  | (name, _) :: blobs' =>
      if Py.endswith name ".json"
      then let '(bucket', returned) :=
             rename_blob (service name) name (archive_name timestamp name) bucket in
           if returned then archive_loop timestamp service blobs' bucket'
           else (bucket', false)
      else archive_loop timestamp service blobs' bucket
  end.

(** [timestamp] is [datetime.now().strftime('%Y%m%d_%H%M%S')], read once
    before the loop. *)
Definition archive_files (timestamp : string) (service : string → rename_outcome)
    (bucket : Bucket) : Bucket * bool :=
  archive_loop timestamp service (list_blobs GCS_ORDER_PREFIX bucket) bucket.

(** ** The DAG (lines 25-33 and 235-237) *)

Inductive task :=
  | T_check_new_files
  | T_load_to_staging
  | T_check_duplicates
  | T_check_amount_mismatch
  | T_transform_to_fact
  | T_update_hourly_agg
  | T_archive_files.

#[global] Instance task_eq_dec : EqDecision task.
Proof. solve_decision. Defined.

(** The edges written with [>>] at lines 236-237. *)
Definition upstream (t : task) : list task :=
  match t with
  | T_check_new_files => []
  | T_load_to_staging => [T_check_new_files]
  | T_check_duplicates => [T_load_to_staging]
  | T_check_amount_mismatch => [T_load_to_staging]
  | T_transform_to_fact => [T_check_duplicates; T_check_amount_mismatch]
  | T_update_hourly_agg => [T_transform_to_fact]
  | T_archive_files => [T_update_hourly_agg]
  end.

(** The final state of a task instance. *)
Inductive task_state :=
  | success
  | failed
  | upstream_failed.

#[global] Instance task_state_eq_dec : EqDecision task_state.
Proof. solve_decision. Defined.

(** Everything the tasks read and write. *)
Record World := {
  bucket : Bucket;
  staging : list Order;
  findings : list QualityFinding;
  facts : list FactOrderLine;
  aggregates : list HourlyMetric;
  customers : list Customer;
  products : list Product;
}.

(** What a run takes from outside: the reading of the clock when each task
    runs, the identifiers of [GENERATE_UUID()], the warehouse's
    [ROUND(x, 2)] on FLOAT64, the string of [datetime.now()] in the
    archiver, the outcome of the rename of each object, the objects that
    land in the bucket just before each task starts, and the answer of the
    warehouse to a load that matches no object. *)
Record Env := {
  clock : task → TIMESTAMP;
  uuids : nat → string;
  round2 : float → float;
  archive_stamp : string;
  storage : string → rename_outcome;
  arrivals : task → list (string * Blob);
  empty_load_ok : bool;
}.

(** An upload writes the object under its name, replacing an older one. *)
Definition upload (objs : list (string * Blob)) (b : Bucket) : Bucket :=
  foldl (λ b nb, <[nb.1 := nb.2]> b) b objs.

Definition with_bucket (w : World) (b : Bucket) : World :=
  {| bucket := b; staging := staging w; findings := findings w; facts := facts w;
     aggregates := aggregates w; customers := customers w; products := products w |}.

Definition with_staging (w : World) (s : list Order) : World :=
  {| bucket := bucket w; staging := s; findings := findings w; facts := facts w;
     aggregates := aggregates w; customers := customers w; products := products w |}.

Definition with_findings (w : World) (q : list QualityFinding) : World :=
  {| bucket := bucket w; staging := staging w; findings := q; facts := facts w;
     aggregates := aggregates w; customers := customers w; products := products w |}.

Definition with_facts (w : World) (f : list FactOrderLine) : World :=
  {| bucket := bucket w; staging := staging w; findings := findings w; facts := f;
     aggregates := aggregates w; customers := customers w; products := products w |}.

Definition with_aggregates (w : World) (a : list HourlyMetric) : World :=
  {| bucket := bucket w; staging := staging w; findings := findings w; facts := facts w;
     aggregates := a; customers := customers w; products := products w |}.

(** One task instance: the world it leaves and whether it succeeded. *)
Definition execute (e : Env) (t : task) (w : World) : World * bool :=
  match t with
  | T_check_new_files => (w, check_new_files (bucket w))
  | T_load_to_staging =>
      match load_to_staging (empty_load_ok e) (bucket w) (staging w) with
      | Some s => (with_staging w s, true)
      | None => (w, false)
      end
  | T_check_duplicates => (w, check_duplicates (clock e t) (staging w))
  | T_check_amount_mismatch =>
      (with_findings w
         (check_amount_mismatch (clock e t) (uuids e) (round2 e) (staging w) (findings w)),
       true)
  | T_transform_to_fact =>
      (with_facts w
         (transform_to_fact (clock e t) (staging w) (customers w) (products w) (facts w)),
       true)
  | T_update_hourly_agg =>
      (with_aggregates w (update_hourly_agg (clock e t) (facts w) (aggregates w)), true)
  | T_archive_files =>
      let '(b, ok) := archive_files (archive_stamp e) (storage e) (bucket w) in
      (with_bucket w b, ok)
  end.

Definition states := task → option task_state.

Definition set_state (st : states) (t : task) (s : task_state) : states :=
  λ u, if decide (u = t) then Some s else st u.

(** The default trigger rule, [all_success]: a task runs when every task
    upstream of it succeeded, and is marked [upstream_failed] otherwise.
    The retries of [default_args] are left out, and a task is tried once:
    a retry of the sensor, of the load or of a check runs on the world the
    task failed on, and a retry of the archiver runs the callable again on
    the bucket that the failed try left. *)
Definition all_success (st : states) (t : task) : bool :=
  forallb (λ u, bool_decide (st u = Some success)) (upstream t).

Definition run_task (e : Env) (s : World * states) (t : task) : World * states :=
  let w := with_bucket s.1 (upload (arrivals e t) (bucket s.1)) in
  if all_success s.2 t
  then let '(w', ok) := execute e t w in
       (w', set_state s.2 t (if ok then success else failed))
  else (w, set_state s.2 t upstream_failed).

(** An order of the tasks compatible with the edges. The two checks are
    independent: one reads [staging] only, the other appends to [findings]. *)
Definition schedule : list task :=
  [T_check_new_files; T_load_to_staging; T_check_duplicates; T_check_amount_mismatch;
   T_transform_to_fact; T_update_hourly_agg; T_archive_files].

(** One DAG run. *)
Definition run (e : Env) (w : World) : World * states :=
  foldl (run_task e) (w, λ _, None) schedule.

(** The run as a whole succeeded. *)
Definition run_succeeded (r : World * states) : Prop :=
  ∀ t, r.2 t = Some success.

(** Successive runs, each on the world that the one before left. *)
Definition runs (es : list Env) (w : World) : World :=
  foldl (λ w e, (run e w).1) w es.

(** Two states of a run that differ at most in staged rows outside the
    window of every task. *)
Definition agree (e : Env) (s s' : World * states) : Prop :=
  s.2 = s'.2
  ∧ bucket s.1 = bucket s'.1
  ∧ findings s.1 = findings s'.1
  ∧ facts s.1 = facts s'.1
  ∧ aggregates s.1 = aggregates s'.1
  ∧ customers s.1 = customers s'.1
  ∧ products s.1 = products s'.1
  ∧ ∀ t, filter (in_window (clock e t)) (staging s.1)
         = filter (in_window (clock e t)) (staging s'.1).

(** ** Sample data *)

Module Sample.

(** 2024-01-01T10:00:00Z and the same hour of the day before. *)
Definition t0 : TIMESTAMP := 1704103200000000.
Definition yesterday : TIMESTAMP := t0 - micros_per_day.

Definition line (p : string) (n : Z) (price : float) : LineItem :=
  {| product_id := Some p; quantity := Some n; unit_price := Some price |}.

Definition order (oid cid : string) (ts : TIMESTAMP) (its : list LineItem)
    (total : float) : Order :=
  {| order_id := oid; customer_id := cid; order_timestamp := ts; items := its;
     total_amount := total; payment_status := Some "completed";
     shipping_address := None |}.

(** Two items, totals match. *)
Definition O1 : Order :=
  order "O1" "CUST-1000" t0 [line "PROD-1000" 2 10%float; line "PROD-1001" 1 5%float] 25%float.

(** Items summing to 45.00 with a recorded total of 50.00. *)
Definition O3 : Order :=
  order "O3" "CUST-1001" t0 [line "PROD-1000" 2 20%float; line "PROD-1001" 1 5%float] 50%float.

(** No line item, recorded total 50.00. *)
Definition O5 : Order := order "O5" "CUST-1002" t0 [] 50%float.

(** One item for 10.00, and three items for 30.00 in total. *)
Definition O6 : Order := order "O6" "CUST-1003" t0 [line "PROD-1000" 1 10%float] 10%float.
Definition O7 : Order :=
  order "O7" "CUST-1004" t0
    [line "PROD-1000" 1 10%float; line "PROD-1001" 1 10%float; line "PROD-1002" 1 10%float]
    30%float.

Definition sample_customers : list Customer :=
  [{| c_customer_id := "CUST-1000"; c_customer_tier := Some "gold" |}].

Definition sample_products : list Product :=
  [{| p_product_id := "PROD-1000"; p_product_name := Some "Books Product 1000";
      p_category := Some "Books" |}].

Definition file (rows : list Order) : Blob := {| records := Some rows |}.

Definition world (b : Bucket) (s : list Order) : World :=
  {| bucket := b; staging := s; findings := []; facts := []; aggregates := [];
     customers := sample_customers; products := sample_products |}.

(** A [ROUND(x, 2)] for the samples: the multiple of 0.01 nearest to the
    value of [x], halfway cases away from zero, as a FLOAT64. The totals of
    the samples are whole numbers, which it leaves as they are. *)
Definition round_int (k e : Z) : Z :=
  if 0 <=? e then k * 2 ^ e else (k + 2 ^ (- e - 1)) `div` 2 ^ (- e).

Definition round_cents (x : float) : float :=
  match Prim2SF x with
  | S754_finite s m e =>
      let n := round_int (100 * Z.pos m) e in
      if 2 ^ 53 <=? n then x
      else let r := (of_INT64 n / 100)%float in if s then (- r)%float else r
  | _ => x
  end.

(** A run at [t0] during which nothing lands in the bucket and every rename
    is served. *)
Definition env : Env :=
  {| clock := λ _, t0; uuids := λ i, "uuid-" +:+ String (ascii_of_nat (97 + i)) "";
     round2 := round_cents;
     archive_stamp := "20240101_100000"; storage := λ _, renamed;
     arrivals := λ _, []; empty_load_ok := false |}.

(** The same run, with [late] landing between the load and the archiver. *)
Definition env_late (late : list (string * Blob)) : Env :=
  {| clock := λ _, t0; uuids := λ i, "uuid-" +:+ String (ascii_of_nat (97 + i)) "";
     round2 := round_cents;
     archive_stamp := "20240101_100000"; storage := λ _, renamed;
     arrivals := λ t, if decide (t = T_archive_files) then late else [];
     empty_load_ok := false |}.


End Sample.

(** * Properties *)

(** ** Lists and joins *)

Section joins.
Context {A B : Type}.

Lemma left_unnest_length (arr : list B) :
  length (left_unnest arr) = (1 `max` length arr)%nat.
Proof. destruct arr as [|b arr]; [done|]. cbn. by rewrite length_fmap. Qed.

Lemma left_unnest_nonempty (arr : list B) : left_unnest arr ≠ [].
Proof. by destruct arr. Qed.

Lemma left_matches_nonempty (P : B → Prop) `{∀ b, Decision (P b)} (r : list B) :
  left_matches P r ≠ [].
Proof. unfold left_matches. by destruct (filter P r). Qed.

(** A key that is unique in a table matches at most one row. *)
Lemma filter_key_length (P : B → Prop) `{∀ b, Decision (P b)}
    `(key : B → K) (r : list B) :
  NoDup (key <$> r) →
  (∀ a b, P a → P b → key a = key b) →
  (length (filter P r) ≤ 1)%nat.
Proof.
  intros Hnd Hkey. induction r as [|b r IH]; [cbn; lia|].
  rewrite fmap_cons in Hnd. apply NoDup_cons in Hnd as [Hb Hnd].
  rewrite filter_cons. destruct (decide (P b)) as [HP|]; [|by apply IH].
  assert (filter P r = []) as ->; [|cbn; lia].
  destruct (filter P r) as [|a l] eqn:Hf; [done|]. exfalso. apply Hb.
  assert (a ∈ filter P r) as [Ha Hin]%list_elem_of_filter by (rewrite Hf; left).
  rewrite (Hkey b a HP Ha). apply list_elem_of_fmap. eauto.
Qed.


Lemma bind_length_const (f : A → list B) (n : nat) (l : list A) :
  (∀ x, x ∈ l → length (f x) = n) → length (l ≫= f) = (length l * n)%nat.
Proof.
  induction l as [|x l IH]; intros Hf; [done|].
  rewrite bind_cons, length_app, Hf, IH; [cbn; lia| |left].
  intros y Hy. apply Hf. by right.
Qed.

Lemma bind_nonempty (f : A → list B) (l : list A) :
  l ≠ [] → (∀ x, f x ≠ []) → l ≫= f ≠ [].
Proof.
  destruct l as [|x l]; [done|]. intros _ Hf. rewrite bind_cons.
  specialize (Hf x). by destruct (f x).
Qed.


Lemma filter_none (P : A → Prop) `{∀ a, Decision (P a)} (l : list A) :
  (∀ x, x ∈ l → ¬ P x) → filter P l = [].
Proof.
  induction l as [|x l IH]; intros HP; [done|].
  rewrite filter_cons_False, IH; [done| |apply HP; left].
  intros y Hy. apply HP. by right.
Qed.


End joins.

(** ** Fact Merge *)

Section fact_merge.
Variables (dim_customers : list Customer) (dim_products : list Product).

Lemma joined_rows_nonempty (o : Order) :
  joined_rows dim_customers dim_products o ≠ [].
Proof.
  unfold joined_rows. apply bind_nonempty; [apply left_unnest_nonempty|].
  intros item. apply bind_nonempty; [apply left_matches_nonempty|].
  intros c. apply bind_nonempty; [apply left_matches_nonempty|done].
Qed.

Lemma joined_rows_order (o : Order) (r : FactOrderLine) :
  r ∈ joined_rows dim_customers dim_products o →
  f_order_id r = order_id o ∧ f_order_timestamp r = order_timestamp o.
Proof.
  unfold joined_rows. intros Hr.
  apply list_elem_of_bind in Hr as (item & Hr & _).
  apply list_elem_of_bind in Hr as (c & Hr & _).
  apply list_elem_of_bind in Hr as (p & Hr & _).
  apply list_elem_of_singleton in Hr. by subst.
Qed.


Lemma inserted_order_id (now : TIMESTAMP) (staging_orders : list Order)
    (fact_orders : list FactOrderLine) (oid : string) :
  oid ∈ f_order_id <$> fact_rows_inserted now staging_orders dim_customers
                          dim_products fact_orders ↔
  ∃ o, o ∈ staging_orders ∧ to_merge now fact_orders o ∧ order_id o = oid.
Proof.
  unfold fact_rows_inserted. rewrite list_elem_of_fmap. split.
  - intros (r & -> & Hr). apply list_elem_of_bind in Hr as (o & Hr & Ho).
    apply list_elem_of_filter in Ho as [Hm Ho].
    apply joined_rows_order in Hr as [Hr _]. eauto.
  - intros (o & Ho & Hm & <-).
    destruct (joined_rows dim_customers dim_products o) as [|r l] eqn:Hj;
      [by apply joined_rows_nonempty in Hj|].
    assert (r ∈ joined_rows dim_customers dim_products o) as Hr by (rewrite Hj; left).
    exists r. split; [by apply joined_rows_order in Hr as [-> _]|].
    apply list_elem_of_bind. exists o. split; [done|].
    by apply list_elem_of_filter.
Qed.


End fact_merge.

(** ** The run: what each task instance leaves *)

Section run_task.
Variable e : Env.
Implicit Types (s : World * states) (t u : task).

Lemma run_task_state_other s t u : u ≠ t → (run_task e s t).2 u = s.2 u.
Proof.
  intros Hne. unfold run_task.
  destruct (all_success s.2 t); [destruct (execute e t _)|]; cbn; unfold set_state;
    by rewrite decide_False.
Qed.

Lemma run_task_state_self s t :
  (run_task e s t).2 t
  = Some (if all_success s.2 t
          then if (execute e t (with_bucket s.1 (upload (arrivals e t) (bucket s.1)))).2
               then success else failed
          else upstream_failed).
Proof.
  unfold run_task.
  destruct (all_success s.2 t); [destruct (execute e t _)|]; cbn; unfold set_state;
    by rewrite decide_True.
Qed.

Lemma run_task_staging s t :
  t ≠ T_load_to_staging → staging (run_task e s t).1 = staging s.1.
Proof.
  intros Hne. unfold run_task. destruct (all_success s.2 t); [|done].
  destruct t; cbn; try done. by destruct (archive_files _ _ _).
Qed.

Lemma run_task_findings s t :
  t ≠ T_check_amount_mismatch → findings (run_task e s t).1 = findings s.1.
Proof.
  intros Hne. unfold run_task. destruct (all_success s.2 t); [|done].
  destruct t; cbn; try done; [by destruct (load_to_staging _ _ _)|by destruct (archive_files _ _ _)].
Qed.

Lemma run_task_facts s t :
  t ≠ T_transform_to_fact ∨ all_success s.2 t = false →
  facts (run_task e s t).1 = facts s.1.
Proof.
  intros Hne. unfold run_task. destruct (all_success s.2 t); [|done].
  destruct Hne as [Hne|]; [|done].
  destruct t; cbn; try done; [by destruct (load_to_staging _ _ _)|by destruct (archive_files _ _ _)].
Qed.

Lemma run_task_aggregates s t :
  t ≠ T_update_hourly_agg ∨ all_success s.2 t = false →
  aggregates (run_task e s t).1 = aggregates s.1.
Proof.
  intros Hne. unfold run_task. destruct (all_success s.2 t); [|done].
  destruct Hne as [Hne|]; [|done].
  destruct t; cbn; try done; [by destruct (load_to_staging _ _ _)|by destruct (archive_files _ _ _)].
Qed.

Lemma run_task_dims s t :
  customers (run_task e s t).1 = customers s.1
  ∧ products (run_task e s t).1 = products s.1.
Proof.
  unfold run_task. destruct (all_success s.2 t); [|done].
  destruct t; cbn; try done; [by destruct (load_to_staging _ _ _)|by destruct (archive_files _ _ _)].
Qed.

Lemma all_success_spec (st : states) t :
  all_success st t = true ↔ ∀ u, u ∈ upstream t → st u = Some success.
Proof.
  unfold all_success. rewrite forallb_forall. split; intros H u Hu.
  - apply list_elem_of_In in Hu. by eapply bool_decide_eq_true_1, H.
  - apply list_elem_of_In in Hu. by eapply bool_decide_eq_true_2, H.
Qed.

Lemma run_task_skipped s t u :
  u ∈ upstream t → s.2 u ≠ Some success →
  (run_task e s t).2 t = Some upstream_failed ∧ all_success s.2 t = false.
Proof.
  intros Hu Hs. assert (all_success s.2 t = false) as Hno.
  { apply not_true_is_false. rewrite all_success_spec. intros Hall. by apply Hs, Hall. }
  by rewrite run_task_state_self, Hno.
Qed.

Lemma run_check_duplicates s :
  s.2 T_load_to_staging = Some success →
  (run_task e s T_check_duplicates).2 T_check_duplicates
  = Some (if check_duplicates (clock e T_check_duplicates) (staging s.1)
          then success else failed).
Proof.
  intros Hup. rewrite run_task_state_self.
  assert (all_success s.2 T_check_duplicates = true) as ->; [|done].
  apply all_success_spec. intros u ->%list_elem_of_singleton. done.
Qed.

Lemma run_check_amount_mismatch s :
  s.2 T_load_to_staging = Some success →
  (run_task e s T_check_amount_mismatch).2 T_check_amount_mismatch = Some success
  ∧ findings (run_task e s T_check_amount_mismatch).1
    = check_amount_mismatch (clock e T_check_amount_mismatch) (uuids e) (round2 e)
        (staging s.1) (findings s.1).
Proof.
  intros Hup.
  assert (all_success s.2 T_check_amount_mismatch = true) as Hall.
  { apply all_success_spec. intros u ->%list_elem_of_singleton. done. }
  split; [by rewrite run_task_state_self, Hall|].
  unfold run_task. by rewrite Hall.
Qed.

Lemma run_transform_to_fact s :
  s.2 T_check_duplicates = Some success →
  s.2 T_check_amount_mismatch = Some success →
  (run_task e s T_transform_to_fact).2 T_transform_to_fact = Some success
  ∧ facts (run_task e s T_transform_to_fact).1
    = transform_to_fact (clock e T_transform_to_fact) (staging s.1) (customers s.1)
        (products s.1) (facts s.1).
Proof.
  intros Hdup Hmis.
  assert (all_success s.2 T_transform_to_fact = true) as Hall.
  { apply all_success_spec. intros u. cbn. rewrite !elem_of_cons, elem_of_nil.
    intros [->|[->|[]]]; done. }
  split; [by rewrite run_task_state_self, Hall|].
  unfold run_task. by rewrite Hall.
Qed.

Lemma run_update_hourly_agg s :
  s.2 T_transform_to_fact = Some success →
  (run_task e s T_update_hourly_agg).2 T_update_hourly_agg = Some success
  ∧ aggregates (run_task e s T_update_hourly_agg).1
    = update_hourly_agg (clock e T_update_hourly_agg) (facts s.1) (aggregates s.1).
Proof.
  intros Hup.
  assert (all_success s.2 T_update_hourly_agg = true) as Hall.
  { apply all_success_spec. intros u ->%list_elem_of_singleton. done. }
  split; [by rewrite run_task_state_self, Hall|].
  unfold run_task. by rewrite Hall.
Qed.

End run_task.

(** The run once the load succeeded. *)
Lemma run_loaded (e : Env) (w : World) :
  (run e w).2 T_load_to_staging = Some success →
  let s := staging (run e w).1 in
  findings (run e w).1
    = check_amount_mismatch (clock e T_check_amount_mismatch) (uuids e) (round2 e) s
        (findings w)
  ∧ (run e w).2 T_check_amount_mismatch = Some success
  ∧ (run e w).2 T_check_duplicates
    = Some (if check_duplicates (clock e T_check_duplicates) s then success else failed)
  ∧ if check_duplicates (clock e T_check_duplicates) s
    then (run e w).2 T_transform_to_fact = Some success
         ∧ facts (run e w).1
           = transform_to_fact (clock e T_transform_to_fact) s (customers w) (products w)
               (facts w)
         ∧ (run e w).2 T_update_hourly_agg = Some success
         ∧ aggregates (run e w).1
           = update_hourly_agg (clock e T_update_hourly_agg) (facts (run e w).1)
               (aggregates w)
    else (run e w).2 T_transform_to_fact = Some upstream_failed
         ∧ (run e w).2 T_update_hourly_agg = Some upstream_failed
         ∧ (run e w).2 T_archive_files = Some upstream_failed
         ∧ facts (run e w).1 = facts w
         ∧ aggregates (run e w).1 = aggregates w.
Proof.
  unfold run, schedule. cbn [foldl].
  set (s1 := run_task e (w, λ _, None) T_check_new_files).
  set (s2 := run_task e s1 T_load_to_staging).
  set (s3 := run_task e s2 T_check_duplicates).
  set (s4 := run_task e s3 T_check_amount_mismatch).
  set (s5 := run_task e s4 T_transform_to_fact).
  set (s6 := run_task e s5 T_update_hourly_agg).
  set (s7 := run_task e s6 T_archive_files).
  intros Hload.
  assert (s2.2 T_load_to_staging = Some success) as Hload2.
  { by rewrite <-Hload; unfold s7, s6, s5, s4, s3; rewrite !run_task_state_other. }
  assert (staging s7.1 = staging s2.1) as ->.
  { by unfold s7, s6, s5, s4, s3; rewrite !run_task_staging. }
  assert (staging s3.1 = staging s2.1) as Hst3 by (by unfold s3; rewrite run_task_staging).
  assert (staging s4.1 = staging s2.1) as Hst4 by (by unfold s4; rewrite run_task_staging).
  assert (s3.2 T_load_to_staging = Some success) as Hload3.
  { by unfold s3; rewrite run_task_state_other. }
  destruct (run_check_amount_mismatch e s3 Hload3) as [Hmis Hfind]. fold s4 in Hmis, Hfind.
  pose proof (run_check_duplicates e s2 Hload2) as Hdup. fold s3 in Hdup.
  assert (findings s3.1 = findings w) as Hf3.
  { by unfold s3, s2, s1; rewrite !run_task_findings. }
  assert (s4.2 T_check_duplicates = s3.2 T_check_duplicates) as Hdup4.
  { by unfold s4; rewrite run_task_state_other. }
  assert (facts s4.1 = facts w) as Hfacts4.
  { unfold s4, s3, s2, s1. rewrite !run_task_facts; auto. }
  assert (aggregates s5.1 = aggregates w) as Hagg5.
  { unfold s5, s4, s3, s2, s1. rewrite !run_task_aggregates; auto. }
  assert (customers s4.1 = customers w ∧ products s4.1 = products w) as [Hc4 Hp4].
  { unfold s4, s3, s2, s1. split.
    - by rewrite !(proj1 (run_task_dims _ _ _)).
    - by rewrite !(proj2 (run_task_dims _ _ _)). }
  split; [|split; [|split]].
  - unfold s7, s6, s5. rewrite !run_task_findings by done. by rewrite Hfind, Hst3, Hf3.
  - unfold s7, s6, s5. by rewrite !run_task_state_other.
  - unfold s7, s6, s5, s4. by rewrite !run_task_state_other.
  - destruct (check_duplicates _ _) eqn:Hcheck.
    + destruct (run_transform_to_fact e s4) as [Hfact Hfacts]; [congruence|done|].
      fold s5 in Hfact, Hfacts.
      destruct (run_update_hourly_agg e s5 Hfact) as [Hagg Haggs]. fold s6 in Hagg, Haggs.
      assert (facts s7.1 = facts s5.1) as ->.
      { unfold s7, s6. rewrite !run_task_facts; auto. }
      repeat split.
      * unfold s7, s6. by rewrite !run_task_state_other.
      * by rewrite Hfacts, Hst4, Hc4, Hp4, Hfacts4.
      * unfold s7. by rewrite !run_task_state_other.
      * unfold s7. rewrite run_task_aggregates by auto. by rewrite Haggs, Hagg5.
    + destruct (run_task_skipped e s4 T_transform_to_fact T_check_duplicates)
        as [Hfact Hno5]; [left|congruence|]. fold s5 in Hfact.
      destruct (run_task_skipped e s5 T_update_hourly_agg T_transform_to_fact)
        as [Hagg Hno6]; [left|congruence|]. fold s6 in Hagg.
      destruct (run_task_skipped e s6 T_archive_files T_update_hourly_agg)
        as [Harch _]; [left|congruence|]. fold s7 in Harch.
      repeat split.
      * unfold s7, s6. by rewrite !run_task_state_other.
      * unfold s7. by rewrite !run_task_state_other.
      * done.
      * unfold s7, s6, s5. rewrite !run_task_facts; auto.
      * unfold s7, s6. rewrite !run_task_aggregates; auto.
Qed.

(** ** Quality gate *)

Section quality_gate.
Variable now : TIMESTAMP.

Lemma cnt_pos (oid : string) (rows : list Order) :
  0 < cnt oid rows ↔ oid ∈ order_id <$> rows.
Proof.
  unfold cnt. rewrite list_elem_of_fmap. split.
  - destruct (filter _ rows) as [|o l] eqn:Hf; [cbn; lia|]. intros _.
    assert (o ∈ filter (λ o, order_id o = oid) rows) as Ho by (rewrite Hf; left).
    apply list_elem_of_filter in Ho as [<- Ho]. eauto.
  - intros (o & -> & Ho).
    assert (o ∈ filter (λ o', order_id o' = order_id o) rows) as Hin
      by by apply list_elem_of_filter.
    destruct (filter _ rows); [by apply elem_of_nil in Hin|cbn; lia].
Qed.

(** The check passes exactly when no order id is staged twice in the window. *)
Lemma check_duplicates_spec (staging_orders : list Order) :
  check_duplicates now staging_orders = true ↔
  ∀ oid, cnt oid (filter (in_window now) staging_orders) ≤ 1.
Proof.
  unfold check_duplicates, duplicate_groups. rewrite bool_decide_eq_true.
  set (rows := filter (in_window now) staging_orders). split.
  - intros Hlen oid. destruct (decide (1 < cnt oid rows)) as [Hdup|]; [|lia].
    exfalso.
    assert ((oid, cnt oid rows) ∈
            filter (λ g : string * Z, 1 < g.2)
              ((λ oid, (oid, cnt oid rows)) <$> remove_dups (order_id <$> rows))) as Hin.
    { apply list_elem_of_filter. split; [done|]. apply list_elem_of_fmap.
      exists oid. split; [done|]. apply elem_of_remove_dups, cnt_pos. lia. }
    destruct (filter (λ g : string * Z, 1 < g.2) _);
      [by apply elem_of_nil in Hin|cbn [length] in Hlen; lia].
  - intros Hcnt. rewrite filter_none; [done|].
    intros g (oid & -> & _)%list_elem_of_fmap. cbn. specialize (Hcnt oid). lia.
Qed.

Lemma check_duplicates_fails (staging_orders : list Order) (oid : string) :
  1 < cnt oid (filter (in_window now) staging_orders) →
  check_duplicates now staging_orders = false.
Proof.
  intros Hdup. apply not_true_is_false. rewrite check_duplicates_spec.
  intros Hcnt. specialize (Hcnt oid). lia.
Qed.

(** No line item, no comparison: the calculated total is NULL. *)
Lemma calculated_total_no_items (r : float → float) (o : Order) :
  items o = [] → calculated_total r o = None ∧ ¬ mismatch r o.
Proof.
  intros Hitems. unfold mismatch, calculated_total. rewrite Hitems. cbn. split; [done|tauto].
Qed.

Variable uuids : nat → string.
Variable r : float → float.



End quality_gate.

(** ** Aggregate Updater *)

Section lists_by_key.
Context {A K : Type} `{EqDecision K}.

Lemma filter_fmap_length {B} (f : A → B) (P : B → Prop) `{∀ b, Decision (P b)}
    (l : list A) :
  length (filter P (f <$> l)) = length (filter (λ a, P (f a)) l).
Proof.
  induction l as [|a l IH]; [done|].
  rewrite fmap_cons, !filter_cons. destruct (decide (P (f a))); cbn; by rewrite IH.
Qed.

Lemma filter_length_pos (P : A → Prop) `{∀ a, Decision (P a)} (l : list A) (x : A) :
  x ∈ l → P x → (1 ≤ length (filter P l))%nat.
Proof.
  intros Hx HP. assert (x ∈ filter P l) as Hin by by apply list_elem_of_filter.
  destruct (filter P l); [by apply elem_of_nil in Hin|cbn; lia].
Qed.

(** A key of a table without duplicate keys selects one row. *)
Lemma filter_key_unique (key : A → K) (l : list A) (k : K) :
  NoDup (key <$> l) → k ∈ key <$> l →
  length (filter (λ a, key a = k) l) = 1%nat.
Proof.
  intros Hnd (a & -> & Ha)%list_elem_of_fmap.
  pose proof (filter_key_length (λ b, key b = key a) key l Hnd) as Hle.
  pose proof (filter_length_pos (λ b, key b = key a) l a Ha eq_refl).
  specialize (Hle ltac:(congruence)). lia.
Qed.

End lists_by_key.

Section aggregates.
Variables (now : TIMESTAMP) (fact_orders : list FactOrderLine).

Let rows := filter (fact_in_window now) fact_orders.
Let hours := remove_dups (TIMESTAMP_TRUNC_HOUR ∘ f_order_timestamp <$> rows).

Lemma hourly_sources_hours :
  s_metric_hour <$> hourly_sources now fact_orders = hours.
Proof.
  unfold hourly_sources. fold rows. fold hours.
  rewrite <-list_fmap_compose. apply list_fmap_id.
Qed.

Lemma hourly_sources_elem (s : HourlySource) :
  s ∈ hourly_sources now fact_orders →
  s = hourly_source (s_metric_hour s) (hour_group (s_metric_hour s) rows).
Proof.
  unfold hourly_sources. fold rows. fold hours.
  by intros (h & -> & _)%list_elem_of_fmap.
Qed.

Lemma hourly_sources_NoDup : NoDup (s_metric_hour <$> hourly_sources now fact_orders).
Proof. rewrite hourly_sources_hours. apply NoDup_remove_dups. Qed.

Lemma merge_hourly_keeps_hour (S : list HourlySource) (t : HourlyMetric) :
  metric_hour
    (match list_find (λ s, metric_hour t = s_metric_hour s) S with
     | Some (_, s) => matched_update now s t
     | None => t
     end) = metric_hour t.
Proof. by destruct (list_find _ S) as [[? ?]|]. Qed.

(** The number of rows stored under an hour after the MERGE. *)
Lemma merge_hourly_count (S : list HourlySource) (T : list HourlyMetric) (h : TIMESTAMP) :
  NoDup (s_metric_hour <$> S) → h ∈ s_metric_hour <$> S →
  length (filter (λ r, metric_hour r = h) (merge_hourly now S T))
  = (1 `max` length (filter (λ r, metric_hour r = h) T))%nat.
Proof.
  intros Hnd Hh. unfold merge_hourly.
  rewrite filter_app, length_app, !filter_fmap_length.
  rewrite (list_filter_iff _ (λ r, metric_hour r = h) T)
    by (intros t; by rewrite merge_hourly_keeps_hour).
  cbn [not_matched_insert metric_hour]. rewrite list_filter_filter.
  destruct (decide (h ∈ metric_hour <$> T)) as [Hin|Hout].
  - rewrite (filter_none (λ s, _ ∧ _) S); [|intros s _ [Heq Hs]; cbn in Heq; by subst].
    apply list_elem_of_fmap in Hin as (t & -> & Ht).
    pose proof (filter_length_pos (λ r, metric_hour r = metric_hour t) T t Ht eq_refl).
    cbn. lia.
  - rewrite (list_filter_iff _ (λ s, s_metric_hour s = h))
      by (intros s; split; [tauto|by intros ->]).
    rewrite (filter_key_unique s_metric_hour S h Hnd Hh).
    rewrite (filter_none _ T); [done|]. intros t Ht Heq. apply Hout.
    apply list_elem_of_fmap. eauto.
Qed.

(** A row of [S] is its hour together with the aggregates of that hour. *)
Lemma merge_hourly_row (T : list HourlyMetric) (row : HourlyMetric) :
  row ∈ merge_hourly now (hourly_sources now fact_orders) T →
  metric_hour row ∈ hours →
  row = not_matched_insert now
          (hourly_source (metric_hour row) (hour_group (metric_hour row) rows)).
Proof.
  unfold merge_hourly. rewrite elem_of_app, !list_elem_of_fmap.
  intros [(t & -> & Ht)|(s & -> & Hs)] Hh.
  - rewrite merge_hourly_keeps_hour in *.
    destruct (list_find _ _) as [[i s]|] eqn:Hfind.
    + apply list_find_Some in Hfind as (Hs%list_elem_of_lookup_2 & Heq & _).
      rewrite (hourly_sources_elem s Hs). cbn. unfold matched_update, not_matched_insert.
      cbn. by rewrite Heq.
    + exfalso. apply list_find_None in Hfind. rewrite Forall_forall in Hfind.
      rewrite <-hourly_sources_hours in Hh.
      apply list_elem_of_fmap in Hh as (s & Heq & Hs). by apply (Hfind s Hs).
  - apply list_elem_of_filter in Hs as [_ Hs].
    rewrite (hourly_sources_elem s Hs) at 1. done.
Qed.

End aggregates.

(** ** The window *)

Section window.
Variable now : TIMESTAMP.

Lemma check_duplicates_window (s s' : list Order) :
  filter (in_window now) s = filter (in_window now) s' →
  check_duplicates now s = check_duplicates now s'.
Proof. intros Heq. unfold check_duplicates, duplicate_groups. by rewrite Heq. Qed.

Lemma findings_inserted_window (uuids : nat → string) (r : float → float)
    (s s' : list Order) :
  filter (in_window now) s = filter (in_window now) s' →
  findings_inserted now uuids r s = findings_inserted now uuids r s'.
Proof. intros Heq. unfold findings_inserted. by rewrite Heq. Qed.

Lemma to_merge_window (fact_orders : list FactOrderLine) (s : list Order) :
  filter (to_merge now fact_orders) s
  = filter (λ o, order_id o ∉ f_order_id <$> fact_orders) (filter (in_window now) s).
Proof.
  rewrite list_filter_filter. apply list_filter_iff.
  intros o. unfold to_merge, in_window. tauto.
Qed.

Lemma fact_rows_inserted_window (dc : list Customer) (dp : list Product)
    (fact_orders : list FactOrderLine) (s s' : list Order) :
  filter (in_window now) s = filter (in_window now) s' →
  fact_rows_inserted now s dc dp fact_orders = fact_rows_inserted now s' dc dp fact_orders.
Proof. intros Heq. unfold fact_rows_inserted. by rewrite !to_merge_window, Heq. Qed.

Lemma window_skips (o : Order) (s1 s2 : list Order) :
  ¬ in_window now o →
  filter (in_window now) (s1 ++ o :: s2) = filter (in_window now) (s1 ++ s2).
Proof. intros Hout. by rewrite !filter_app, filter_cons_False. Qed.

Lemma fact_window_skips (r : FactOrderLine) (f1 f2 : list FactOrderLine) :
  ¬ fact_in_window now r →
  filter (fact_in_window now) (f1 ++ r :: f2) = filter (fact_in_window now) (f1 ++ f2).
Proof. intros Hout. by rewrite !filter_app, filter_cons_False. Qed.

Lemma update_hourly_agg_window (f f' : list FactOrderLine) (T : list HourlyMetric) :
  filter (fact_in_window now) f = filter (fact_in_window now) f' →
  update_hourly_agg now f T = update_hourly_agg now f' T.
Proof. intros Heq. unfold update_hourly_agg, hourly_sources. by rewrite Heq. Qed.

End window.

Lemma run_task_agree (e : Env) (s s' : World * states) (t : task) :
  agree e s s' → agree e (run_task e s t) (run_task e s' t).
Proof.
  destruct s as [[b sg q f a c p] st], s' as [[b' sg' q' f' a' c' p'] st'].
  unfold agree. cbn. intros (-> & -> & -> & -> & -> & -> & -> & Hwin).
  unfold run_task. cbn. destruct (all_success st' t); [|done].
  destruct t;
    cbn [execute with_bucket with_staging with_findings with_facts with_aggregates
         bucket staging findings facts aggregates customers products fst snd];
    try done.
  - unfold load_to_staging. destruct (load_set (upload _ b')) as [|nb objs].
    + by destruct (empty_load_ok e).
    + destruct (mapM _ (nb :: objs)) as [rows|]; cbn; [|done].
      repeat split; try done. intros t. by rewrite !filter_app, Hwin.
  - by rewrite (check_duplicates_window _ _ _ (Hwin T_check_duplicates)).
  - unfold check_amount_mismatch.
    by rewrite (findings_inserted_window _ _ _ _ _ (Hwin T_check_amount_mismatch)).
  - unfold transform_to_fact.
    by rewrite (fact_rows_inserted_window _ _ _ _ _ _ (Hwin T_transform_to_fact)).
  - by destruct (archive_files _ _ _).
Qed.

Lemma run_tasks_agree (e : Env) (l : list task) (s s' : World * states) :
  agree e s s' → agree e (foldl (run_task e) s l) (foldl (run_task e) s' l).
Proof.
  revert s s'. induction l as [|t l IH]; intros s s' Hag; [done|].
  cbn [foldl]. by apply IH, run_task_agree.
Qed.

Lemma run_agree (e : Env) (w w' : World) :
  agree e (w, λ _, None) (w', λ _, None) → agree e (run e w) (run e w').
Proof. apply run_tasks_agree. Qed.

(** ** Object names *)

Section names.
Implicit Types (s p r x : string).

Lemma prefix_app p s : String.prefix p s = true → ∃ r, s = p +:+ r.
Proof.
  revert s. induction p as [|a p IH]; intros s.
  - intros _. by exists s.
  - destruct s as [|b s]; cbn; [done|].
    destruct (ascii_dec a b) as [->|]; [|done].
    intros [r ->]%IH. by exists r.
Qed.

Lemma prefix_app_true p r : String.prefix p (p +:+ r) = true.
Proof.
  induction p as [|a p IH]; [by destruct r|].
  change (String a p +:+ r) with (String a (p +:+ r)). cbn.
  by destruct (ascii_dec a a).
Qed.

Lemma length_append x s :
  String.length (x +:+ s) = (String.length x + String.length s)%nat.
Proof.
  induction x as [|a x IH]; [done|].
  change (String a x +:+ s) with (String a (x +:+ s)). cbn. by rewrite IH.
Qed.

Lemma substring_all s : String.substring 0 (String.length s) s = s.
Proof. induction s as [|a s IH]; [done|]. cbn. f_equal. exact IH. Qed.

Lemma substring_skip x s m :
  String.substring (String.length x) m (x +:+ s) = String.substring 0 m s.
Proof.
  induction x as [|a x IH]; [done|].
  change (String a x +:+ s) with (String a (x +:+ s)). cbn. exact IH.
Qed.

Lemma endswith_app x s : Py.endswith (x +:+ s) s = true.
Proof.
  unfold Py.endswith. rewrite length_append.
  replace (String.length x + String.length s - String.length s)%nat
    with (String.length x) by lia.
  rewrite substring_skip, substring_all.
  apply andb_true_iff. split; apply bool_decide_eq_true; [lia|done].
Qed.

(** A character of a pattern other than the star stands for itself. *)
Lemma wildcard_char (a : ascii) p s :
  a ≠ "*"%char → wildcard (String a p) s = true →
  ∃ s', s = String a s' ∧ wildcard p s' = true.
Proof.
  intros Ha. cbn. rewrite bool_decide_false by done.
  destruct s as [|b s']; [done|].
  intros [<-%bool_decide_eq_true Hp]%andb_true_iff. eauto.
Qed.

Lemma wildcard_nil s : wildcard "" s = true → s = "".
Proof. cbn. by intros ?%bool_decide_eq_true. Qed.

Lemma wildcard_json s : wildcard ".json" s = true → s = ".json".
Proof.
  intros H.
  repeat (apply wildcard_char in H as (? & -> & H); [|done]).
  by apply wildcard_nil in H as ->.
Qed.

(** The star stands for nothing, or for one character and then itself. *)
Lemma wildcard_star p s :
  wildcard (String "*" p) s
  = wildcard p s
    || match s with
       | EmptyString => false
       | String _ s' => wildcard (String "*" p) s'
       end.
Proof. by destruct s. Qed.

Lemma wildcard_star_json s :
  wildcard "*.json" s = true → ∃ x, s = x +:+ ".json".
Proof.
  induction s as [|a s IH]; rewrite wildcard_star.
  - done.
  - intros [H|H]%orb_true_iff.
    + exists "". by apply wildcard_json in H.
    + apply IH in H as [x ->]. by exists (String a x).
Qed.

(** The pattern of the load job selects the names under the prefix that
    end in [.json]. *)
Lemma source_objects_name s :
  wildcard source_objects s = true →
  Py.startswith s GCS_ORDER_PREFIX = true ∧ Py.endswith s ".json" = true.
Proof.
  intros H. change source_objects with "landing/orders/*.json" in H.
  repeat (apply wildcard_char in H as (? & -> & H); [|done]).
  apply wildcard_star_json in H as [base ->]. split.
  - apply (prefix_app_true "landing/orders/" (base +:+ ".json")).
  - apply (endswith_app ("landing/orders/" +:+ base) ".json").
Qed.

Lemma replace_from_hit (old new : string) (a : ascii) s :
  String.prefix old (String a s) = true →
  Py.replace_from old new 0 (String a s)
  = new +:+ Py.replace_from old new (String.length old - 1) s.
Proof. intros H. cbn [Py.replace_from]. by rewrite H. Qed.

(** The name of an archived object starts with the archive directory of
    the run. *)
Lemma archive_name_head (timestamp : string) s :
  Py.startswith s GCS_ORDER_PREFIX = true →
  ∃ r, archive_name timestamp s = ("archive/" +:+ timestamp +:+ "/") +:+ r.
Proof.
  intros [r ->]%prefix_app. unfold archive_name, Py.replace.
  change (GCS_ORDER_PREFIX +:+ r) with (String "l" ("anding/orders/" +:+ r)).
  rewrite replace_from_hit by (vm_compute; reflexivity). by eexists.
Qed.

Lemma archive_name_not_landing (timestamp : string) s :
  Py.startswith s GCS_ORDER_PREFIX = true →
  Py.startswith (archive_name timestamp s) GCS_ORDER_PREFIX = false.
Proof. intros [r ->]%(archive_name_head timestamp). done. Qed.

Lemma archive_name_fresh (timestamp : string) s x :
  Py.startswith s GCS_ORDER_PREFIX = true →
  Py.startswith x GCS_ORDER_PREFIX = true →
  archive_name timestamp s ≠ x.
Proof.
  intros Hs Hx Heq. apply (archive_name_not_landing timestamp) in Hs.
  rewrite Heq in Hs. congruence.
Qed.

End names.

(** ** The bucket *)

Section bucket.
Implicit Types (b : Bucket) (k n : string) (v : Blob).

Lemma list_blobs_elem (prefix : string) b n v :
  (n, v) ∈ list_blobs prefix b ↔ b !! n = Some v ∧ Py.startswith n prefix = true.
Proof.
  unfold list_blobs. rewrite list_elem_of_filter, elem_of_map_to_list. cbn. tauto.
Qed.

Lemma load_set_elem b n v :
  (n, v) ∈ load_set b ↔ b !! n = Some v ∧ wildcard source_objects n = true.
Proof.
  unfold load_set. rewrite list_elem_of_filter, elem_of_map_to_list. cbn. tauto.
Qed.

Lemma list_blobs_NoDup (prefix : string) b : NoDup (list_blobs prefix b).*1.
Proof.
  unfold list_blobs. pose proof (NoDup_fst_map_to_list b) as Hnd.
  induction (map_to_list b) as [|nb l IH]; [constructor|].
  rewrite fmap_cons in Hnd. apply NoDup_cons in Hnd as [Hnb Hnd].
  rewrite filter_cons. destruct (decide _); [|by apply IH].
  rewrite fmap_cons. apply NoDup_cons. split; [|by apply IH].
  intros (nb' & Heq & [_ Hin]%list_elem_of_filter)%list_elem_of_fmap.
  apply Hnb, list_elem_of_fmap. eauto.
Qed.

(** One object under the prefix is enough for the sensor. *)
Lemma check_new_files_true b n v :
  b !! n = Some v → Py.startswith n GCS_ORDER_PREFIX = true → check_new_files b = true.
Proof.
  intros Hn Hp. unfold check_new_files.
  assert ((n, v) ∈ list_blobs GCS_ORDER_PREFIX b) as Hin by by apply list_blobs_elem.
  destruct (list_blobs _ b); [by apply elem_of_nil in Hin|done].
Qed.

Lemma upload_keeps (objs : list (string * Blob)) b k v :
  k ∉ objs.*1 → b !! k = Some v → upload objs b !! k = Some v.
Proof.
  unfold upload. revert b. induction objs as [|nb objs IH]; intros b Hk Hb; [done|].
  rewrite fmap_cons, not_elem_of_cons in Hk. destruct Hk as [Hne Hk].
  cbn [foldl]. apply IH; [done|]. by rewrite lookup_insert_ne.
Qed.

Lemma rename_blob_other (served : rename_outcome) n (new_name : string) b k :
  k ≠ n → k ≠ new_name → (rename_blob served n new_name b).1 !! k = b !! k.
Proof.
  intros Hn Hnew. unfold rename_blob. destruct (b !! n); [|done].
  destruct served; cbn [fst]; [|done|].
  - by rewrite lookup_delete_ne, lookup_insert_ne.
  - by rewrite lookup_insert_ne.
Qed.

(** A rename that returned found the object and was served in full. *)
Lemma rename_blob_returned (served : rename_outcome) n (new_name : string) b :
  (rename_blob served n new_name b).2 = true →
  ∃ v, b !! n = Some v
       ∧ (rename_blob served n new_name b).1 = delete n (<[new_name := v]> b).
Proof.
  unfold rename_blob. destruct (b !! n) as [v|]; [|done].
  destruct served; try done. intros _. by exists v.
Qed.

Lemma rename_blob_renamed n (new_name : string) b v :
  b !! n = Some v →
  rename_blob renamed n new_name b = (delete n (<[new_name := v]> b), true).
Proof. unfold rename_blob. by intros ->. Qed.

(** The loop leaves alone what it does not rename and does not overwrite,
    whether the renames are served or not. *)
Lemma archive_loop_other (timestamp : string) (service : string → rename_outcome)
    (blobs : list (string * Blob)) b k :
  (∀ nb, nb ∈ blobs → Py.startswith nb.1 GCS_ORDER_PREFIX = true) →
  Py.startswith k GCS_ORDER_PREFIX = true →
  (k ∈ blobs.*1 → Py.endswith k ".json" = false) →
  (archive_loop timestamp service blobs b).1 !! k = b !! k.
Proof.
  revert b. induction blobs as [|[n v] blobs IH]; intros b Hpre Hk Hjson; [done|].
  assert (∀ b', (archive_loop timestamp service blobs b').1 !! k = b' !! k) as Hskip.
  { intros b'. apply IH; [|done|].
    - intros nb Hnb. apply Hpre. by right.
    - intros Hin. apply Hjson. rewrite fmap_cons. by right. }
  cbn [archive_loop]. destruct (Py.endswith n ".json") eqn:Hn; [|done].
  assert ((rename_blob (service n) n (archive_name timestamp n) b).1 !! k = b !! k) as Hren.
  { apply rename_blob_other.
    - intros ->. rewrite Hjson in Hn; [done|]. rewrite fmap_cons. left.
    - intros ->. eapply archive_name_fresh; [|exact Hk|done].
      apply (Hpre (n, v)). left. }
  destruct (rename_blob (service n) n _ b) as [b' [|]]; cbn [fst] in Hren; [|done].
  by rewrite Hskip.
Qed.

(** An object under the prefix whose name does not end in [.json] stays. *)
Lemma archive_files_keeps (timestamp : string) (service : string → rename_outcome) b k v :
  Py.startswith k GCS_ORDER_PREFIX = true →
  Py.endswith k ".json" = false →
  b !! k = Some v →
  (archive_files timestamp service b).1 !! k = Some v.
Proof.
  intros Hk Hjson Hb. unfold archive_files. rewrite archive_loop_other; [done| |done..].
  intros [n v'] Hnb. by apply list_blobs_elem in Hnb as [_ ?].
Qed.

(** When the service serves the rename of every [.json] object of the
    listing the loop returns: the objects are there when their turn comes. *)
Lemma archive_loop_returns (timestamp : string) (service : string → rename_outcome)
    (blobs : list (string * Blob)) b :
  (∀ nb, nb ∈ blobs → Py.endswith nb.1 ".json" = true → service nb.1 = renamed) →
  NoDup blobs.*1 →
  (∀ nb, nb ∈ blobs → Py.startswith nb.1 GCS_ORDER_PREFIX = true ∧ is_Some (b !! nb.1)) →
  (archive_loop timestamp service blobs b).2 = true.
Proof.
  revert b. induction blobs as [|[n v] blobs IH]; intros b Hserved Hnd Hin; [done|].
  rewrite fmap_cons in Hnd. apply NoDup_cons in Hnd as [Hn Hnd].
  assert (∀ nb, nb ∈ blobs → Py.endswith nb.1 ".json" = true → service nb.1 = renamed)
    as Hserved'.
  { intros nb Hnb. apply Hserved. by right. }
  cbn [archive_loop]. destruct (Py.endswith n ".json") eqn:Hends.
  - destruct (Hin (n, v)) as [Hpre [v' Hv']]; [left|]. cbn in Hv'.
    assert (service n = renamed) as -> by (by apply (Hserved (n, v)); [left|]).
    rewrite (rename_blob_renamed _ _ _ _ Hv').
    apply IH; [done..|].
    intros nb Hnb. destruct (Hin nb) as [Hp Hsome]; [by right|]. split; [done|].
    rewrite lookup_delete_ne, lookup_insert_ne; [done| |].
    + by apply archive_name_fresh.
    + intros Heq. apply Hn, list_elem_of_fmap. by exists nb.
  - apply IH; [done..|]. intros nb Hnb. apply Hin. by right.
Qed.

(** And only then: a loop that returned was served every rename it asked. *)
Lemma archive_loop_served (timestamp : string) (service : string → rename_outcome)
    (blobs : list (string * Blob)) b :
  (archive_loop timestamp service blobs b).2 = true →
  ∀ nb, nb ∈ blobs → Py.endswith nb.1 ".json" = true → service nb.1 = renamed.
Proof.
  revert b. induction blobs as [|[n v] blobs IH]; intros b Hret nb Hnb Hj;
    [by apply elem_of_nil in Hnb|].
  cbn [archive_loop] in Hret.
  apply elem_of_cons in Hnb as [->|Hnb]; cbn [fst] in *.
  - rewrite Hj in Hret. unfold rename_blob in Hret.
    destruct (b !! n); [|cbn in Hret; done].
    destruct (service n); [done|cbn in Hret; done..].
  - destruct (Py.endswith n ".json"); [|by eapply IH].
    destruct (rename_blob _ _ _ _) as [b' [|]]; [by eapply IH|done].
Qed.

Lemma archive_files_returns (timestamp : string) (service : string → rename_outcome) b :
  (archive_files timestamp service b).2 = true
  ↔ ∀ n, is_Some (b !! n) → Py.startswith n GCS_ORDER_PREFIX = true →
         Py.endswith n ".json" = true → service n = renamed.
Proof.
  unfold archive_files. split.
  - intros Hret n [v Hn] Hp Hj.
    apply (archive_loop_served _ _ _ _ Hret (n, v)); [|done]. by apply list_blobs_elem.
  - intros Hserved. apply archive_loop_returns; [|apply list_blobs_NoDup|].
    + intros [n v] [Hb Hp]%list_blobs_elem Hj. apply Hserved; [|done..]. cbn. by rewrite Hb.
    + intros [n v] [Hb Hp]%list_blobs_elem. split; [done|]. cbn. by rewrite Hb.
Qed.

End bucket.

(** ** What a run does to the bucket *)

Section run_bucket.
Variables (k : string) (v : Blob).
Hypothesis Hprefix : Py.startswith k GCS_ORDER_PREFIX = true.
Hypothesis Hjson : Py.endswith k ".json" = false.

Lemma execute_keeps (e : Env) (t : task) (w : World) :
  bucket w !! k = Some v → bucket (execute e t w).1 !! k = Some v.
Proof.
  intros Hk. destruct t; cbn [execute]; try done.
  - by destruct (load_to_staging _ _ _).
  - pose proof (archive_files_keeps (archive_stamp e) (storage e) (bucket w) k v
                  Hprefix Hjson Hk).
    by destruct (archive_files _ _ _).
Qed.

Lemma run_task_keeps (e : Env) (s : World * states) (t : task) :
  k ∉ (arrivals e t).*1 →
  bucket s.1 !! k = Some v → bucket (run_task e s t).1 !! k = Some v.
Proof.
  intros Harr Hk. unfold run_task.
  set (w := with_bucket s.1 _).
  assert (bucket w !! k = Some v) as Hw by by apply upload_keeps.
  destruct (all_success s.2 t); [|done].
  pose proof (execute_keeps e t w Hw). by destruct (execute e t w).
Qed.

Lemma run_keeps (e : Env) (w : World) :
  (∀ t, k ∉ (arrivals e t).*1) →
  bucket w !! k = Some v → bucket (run e w).1 !! k = Some v.
Proof.
  intros Harr. unfold run. generalize (λ _ : task, @None task_state).
  generalize schedule. intros l. revert w.
  induction l as [|t l IH]; intros w st Hk; [done|].
  cbn [foldl]. pose proof (run_task_keeps e (w, st) t (Harr t) Hk) as Hk'.
  destruct (run_task e (w, st) t) as [w' st']. by apply IH.
Qed.

Lemma runs_keep (es : list Env) (w : World) :
  (∀ e t, e ∈ es → k ∉ (arrivals e t).*1) →
  bucket w !! k = Some v → bucket (runs es w) !! k = Some v.
Proof.
  unfold runs. revert w. induction es as [|e es IH]; intros w Harr Hk; [done|].
  cbn [foldl]. apply IH.
  - intros e' t He'. apply Harr. by right.
  - apply run_keeps; [|done]. intros t. apply Harr. left.
Qed.

Lemma run_sensor (e : Env) (w : World) :
  k ∉ (arrivals e T_check_new_files).*1 →
  bucket w !! k = Some v → (run e w).2 T_check_new_files = Some success.
Proof.
  intros Harr Hk. unfold run, schedule. cbn [foldl].
  rewrite !run_task_state_other by done. rewrite run_task_state_self.
  cbn [all_success upstream forallb execute fst snd].
  rewrite (check_new_files_true _ k v); [done| |done]. by apply upload_keeps.
Qed.

End run_bucket.

(** ** What the archiver leaves under the prefix *)

Lemma archive_loop_clears (timestamp : string) (service : string → rename_outcome)
    (blobs : list (string * Blob)) (b : Bucket) (k : string) :
  (∀ nb, nb ∈ blobs → Py.startswith nb.1 GCS_ORDER_PREFIX = true) →
  Py.startswith k GCS_ORDER_PREFIX = true →
  Py.endswith k ".json" = true →
  k ∈ blobs.*1 ∨ b !! k = None →
  (archive_loop timestamp service blobs b).2 = true →
  (archive_loop timestamp service blobs b).1 !! k = None.
Proof.
  revert b. induction blobs as [|[n v] blobs IH]; intros b Hin Hk Hjson Hcase.
  { destruct Hcase as [Hcase|Hcase]; [by apply elem_of_nil in Hcase|done]. }
  assert (∀ nb, nb ∈ blobs → Py.startswith nb.1 GCS_ORDER_PREFIX = true) as Hin'.
  { intros nb Hnb. apply Hin. by right. }
  cbn [archive_loop]. destruct (Py.endswith n ".json") eqn:Hends.
  - pose proof (rename_blob_returned (service n) n (archive_name timestamp n) b) as Hret.
    destruct (rename_blob (service n) n _ b) as [b' [|]]; [|done].
    destruct Hret as (v' & Hv' & Hb'); [done|]. cbn [fst] in Hb'. subst b'.
    apply IH; [done..|].
    destruct (decide (k = n)) as [->|Hne].
    + right. apply lookup_delete_eq.
    + destruct Hcase as [Hcase|Hcase].
      * rewrite fmap_cons in Hcase. apply elem_of_cons in Hcase as [?|?]; [done|by left].
      * right. rewrite lookup_delete_ne, lookup_insert_ne; [done| |done].
        apply archive_name_fresh; [|done]. apply (Hin (n, v)). left.
  - apply IH; [done..|]. destruct Hcase as [Hcase|Hcase]; [|by right].
    rewrite fmap_cons in Hcase. apply elem_of_cons in Hcase as [Heq|?]; [|by left].
    cbn in Heq. congruence.
Qed.

(** After an archiver that returned, no name under the prefix ends in
    [.json]: the sensor and the load job of a later run see none of the
    objects it moved. *)
Lemma archive_files_clears (timestamp : string) (service : string → rename_outcome)
    (b : Bucket) (k : string) :
  Py.startswith k GCS_ORDER_PREFIX = true →
  Py.endswith k ".json" = true →
  (archive_files timestamp service b).2 = true →
  (archive_files timestamp service b).1 !! k = None.
Proof.
  intros Hk Hjson. unfold archive_files.
  apply archive_loop_clears; [|done..|].
  - intros [n v] [Hb Hp]%list_blobs_elem. done.
  - destruct (b !! k) as [v|] eqn:Hb; [left|by right].
    apply list_elem_of_fmap. exists (k, v). split; [done|]. by apply list_blobs_elem.
Qed.


(** ** Missing dimension rows *)

Lemma left_matches_none {B} (P : B → Prop) `{∀ b, Decision (P b)} (r : list B) :
  (∀ b, b ∈ r → ¬ P b) → left_matches P r = [None].
Proof. intros Hno. unfold left_matches. by rewrite filter_none. Qed.

Lemma left_unnest_elem {B} (arr : list B) (x : option B) :
  x ∈ left_unnest arr → x = None ∧ arr = [] ∨ ∃ b, x = Some b ∧ b ∈ arr.
Proof.
  destruct arr as [|b arr]; cbn [left_unnest].
  - intros ->%list_elem_of_singleton. by left.
  - intros (b' & -> & Hb')%list_elem_of_fmap. right. eauto.
Qed.

(** ** The MERGE on keyed tables *)

Section merge_keyed.
Context {A B K : Type}.

Lemma filter_fmap_fixed (f : A → A) (P : A → Prop) `{∀ a, Decision (P a)} (l : list A) :
  (∀ a, P (f a) ↔ P a) → (∀ a, P a → f a = a) →
  filter P (f <$> l) = filter P l.
Proof.
  intros Hiff Hfix. induction l as [|a l IH]; [done|].
  rewrite fmap_cons. destruct (decide (P a)) as [Ha|Ha].
  - rewrite (filter_cons_True P (f a)) by by apply Hiff.
    rewrite (filter_cons_True P a) by done. by rewrite IH, Hfix.
  - rewrite (filter_cons_False P (f a)) by by rewrite Hiff.
    by rewrite (filter_cons_False P a).
Qed.

Lemma NoDup_fmap_filter (key : A → K) (P : A → Prop) `{∀ a, Decision (P a)} (l : list A) :
  NoDup (key <$> l) → NoDup (key <$> filter P l).
Proof.
  induction l as [|a l IH]; [done|].
  rewrite fmap_cons, NoDup_cons. intros [Ha Hnd]. rewrite filter_cons.
  destruct (decide (P a)); [|by apply IH].
  rewrite fmap_cons, NoDup_cons. split; [|by apply IH].
  intros (a' & Heq & [_ Hin]%list_elem_of_filter)%list_elem_of_fmap.
  apply Ha, list_elem_of_fmap. eauto.
Qed.


End merge_keyed.

Section merge_hourly.
Variables (now : TIMESTAMP) (S : list HourlySource).

Lemma merge_hourly_hours (T : list HourlyMetric) :
  metric_hour <$> merge_hourly now S T
  = (metric_hour <$> T)
    ++ (s_metric_hour <$> filter (λ s, s_metric_hour s ∉ metric_hour <$> T) S).
Proof.
  unfold merge_hourly. rewrite fmap_app, <-!list_fmap_compose. f_equal.
  apply list_fmap_ext. intros i t _. apply merge_hourly_keeps_hour.
Qed.





End merge_hourly.

(** ** The run as a whole *)

Section run_whole.
Variable e : Env.

(** A task that was tried had every task upstream of it succeed. *)
Lemma run_tried (w : World) (t u : task) :
  (run e w).2 t ≠ Some upstream_failed → u ∈ upstream t →
  (run e w).2 u = Some success.
Proof.
  unfold run, schedule. cbn [foldl].
  set (s1 := run_task e (w, λ _, None) T_check_new_files).
  set (s2 := run_task e s1 T_load_to_staging).
  set (s3 := run_task e s2 T_check_duplicates).
  set (s4 := run_task e s3 T_check_amount_mismatch).
  set (s5 := run_task e s4 T_transform_to_fact).
  set (s6 := run_task e s5 T_update_hourly_agg).
  destruct t; cbn [upstream]; intros Htried Hu;
    rewrite ?elem_of_cons, ?elem_of_nil in Hu;
    repeat match goal with H : _ ∨ _ |- _ => destruct H as [H|H] end;
    try done; subst u;
    rewrite ?run_task_state_other in Htried by done;
    rewrite ?run_task_state_other by done;
    unfold s6, s5, s4, s3, s2, s1 in Htried |- *;
    rewrite ?run_task_state_other in Htried by done;
    rewrite ?run_task_state_other by done;
    rewrite run_task_state_self in Htried;
    match type of Htried with
    | context [all_success ?st ?t] =>
        destruct (all_success st t) eqn:Hall; [|done];
        match goal with
        | |- _ ?u = Some success =>
            assert (u ∈ upstream t) as Hin by (cbn; rewrite ?elem_of_cons; auto);
            pose proof (proj1 (all_success_spec _ _) Hall u Hin) as Hu';
            rewrite ?run_task_state_other in Hu' by done; exact Hu'
        end
    end.
Qed.

Lemma run_state_some (w : World) (t : task) : is_Some ((run e w).2 t).
Proof.
  unfold run, schedule. cbn [foldl].
  destruct t; rewrite ?run_task_state_other by done; rewrite run_task_state_self; eauto.
Qed.

(** A task whose upstream task did not succeed leaves the tables alone. *)
Lemma run_task_not_run (s : World * states) (t : task) :
  all_success s.2 t = false →
  staging (run_task e s t).1 = staging s.1
  ∧ findings (run_task e s t).1 = findings s.1
  ∧ facts (run_task e s t).1 = facts s.1
  ∧ aggregates (run_task e s t).1 = aggregates s.1
  ∧ (run_task e s t).2 t = Some upstream_failed.
Proof.
  intros Hno. rewrite run_task_state_self. unfold run_task. by rewrite Hno.
Qed.

(** Whatever a task does, it only appends to the staged rows, the findings
    and the fact rows, and it does not write the dimension tables. *)
Lemma run_task_extends (s : World * states) (t : task) :
  staging s.1 `prefix_of` staging (run_task e s t).1
  ∧ findings s.1 `prefix_of` findings (run_task e s t).1
  ∧ facts s.1 `prefix_of` facts (run_task e s t).1.
Proof.
  unfold run_task. destruct (all_success s.2 t); [|done].
  destruct t;
    cbn [execute with_bucket with_staging with_findings with_facts with_aggregates
         bucket staging findings facts aggregates customers products fst snd];
    try done.
  - unfold load_to_staging. destruct (load_set _) as [|nb objs].
    + by destruct (empty_load_ok e).
    + destruct (mapM _ (nb :: objs)) as [rows|]; cbn; [|done].
      split; [|done]. by eexists.
  - split; [done|]. split; [|done]. unfold check_amount_mismatch. by eexists.
  - split; [done|]. split; [done|]. unfold transform_to_fact. by eexists.
  - by destruct (archive_files _ _ _).
Qed.

Lemma run_tasks_extend (l : list task) (s : World * states) :
  staging s.1 `prefix_of` staging (foldl (run_task e) s l).1
  ∧ findings s.1 `prefix_of` findings (foldl (run_task e) s l).1
  ∧ facts s.1 `prefix_of` facts (foldl (run_task e) s l).1.
Proof.
  revert s. induction l as [|t l IH]; intros s; [done|]. cbn [foldl].
  destruct (run_task_extends s t) as (H1 & H2 & H3).
  destruct (IH (run_task e s t)) as (H1' & H2' & H3').
  split; [|split]; etrans; done.
Qed.

Lemma run_tasks_dims (l : list task) (s : World * states) :
  customers (foldl (run_task e) s l).1 = customers s.1
  ∧ products (foldl (run_task e) s l).1 = products s.1.
Proof.
  revert s. induction l as [|t l IH]; intros s; [done|]. cbn [foldl].
  destruct (IH (run_task e s t)) as [-> ->]. apply run_task_dims.
Qed.

End run_whole.

Lemma mapM_None_elem {A B} (f : A → option B) (l : list A) (x : A) :
  x ∈ l → f x = None → mapM f l = None.
Proof.
  intros Hx Hf. induction l as [|a l IH]; [by apply elem_of_nil in Hx|].
  apply elem_of_cons in Hx as [->|Hx]; cbn.
  - by rewrite Hf.
  - rewrite (IH Hx). by destruct (f a).
Qed.

(** A load set holding an object that violates the schema fails the job. *)
Lemma load_to_staging_invalid (empty_ok : bool) (b : Bucket) (staging_orders : list Order)
    (n : string) (blob : Blob) :
  b !! n = Some blob → wildcard source_objects n = true → records blob = None →
  load_to_staging empty_ok b staging_orders = None.
Proof.
  intros Hb Hn Hrec. unfold load_to_staging.
  assert ((n, blob) ∈ load_set b) as Hin by by apply load_set_elem.
  destruct (load_set b) as [|nb objs] eqn:Hset; [by apply elem_of_nil in Hin|].
  by rewrite (mapM_None_elem (λ nb, records nb.2) (nb :: objs) (n, blob)).
Qed.

Section run_outcomes.
Variable e : Env.

(** A run whose load did not succeed leaves the tables alone and tries no
    later task. *)
Lemma run_not_loaded (w : World) :
  (run e w).2 T_load_to_staging ≠ Some success →
  staging (run e w).1 = staging w
  ∧ findings (run e w).1 = findings w
  ∧ facts (run e w).1 = facts w
  ∧ aggregates (run e w).1 = aggregates w
  ∧ ∀ t, t ∈ [T_check_duplicates; T_check_amount_mismatch; T_transform_to_fact;
              T_update_hourly_agg; T_archive_files] →
         (run e w).2 t = Some upstream_failed.
Proof.
  unfold run, schedule. cbn [foldl].
  set (s1 := run_task e (w, λ _, None) T_check_new_files).
  set (s2 := run_task e s1 T_load_to_staging).
  set (s3 := run_task e s2 T_check_duplicates).
  set (s4 := run_task e s3 T_check_amount_mismatch).
  set (s5 := run_task e s4 T_transform_to_fact).
  set (s6 := run_task e s5 T_update_hourly_agg).
  set (s7 := run_task e s6 T_archive_files).
  intros Hload.
  assert (s2.2 T_load_to_staging ≠ Some success) as Hload2.
  { intros Hs. apply Hload. by unfold s7, s6, s5, s4, s3; rewrite !run_task_state_other. }
  assert (staging s2.1 = staging w) as Hst2.
  { assert (staging s1.1 = staging w) as Hst1 by (by unfold s1; rewrite run_task_staging).
    unfold s2 in Hload2 |- *.
    rewrite run_task_state_self in Hload2. unfold run_task.
    destruct (all_success s1.2 T_load_to_staging); [|exact Hst1].
    cbn [execute] in *. destruct (load_to_staging _ _ _); [done|exact Hst1]. }
  destruct (run_task_skipped e s2 T_check_duplicates T_load_to_staging)
    as [Hd3 Hno3]; [left|done|]. fold s3 in Hd3.
  destruct (run_task_not_run e s2 T_check_duplicates Hno3) as (Hs3 & Hq3 & Hf3 & Ha3 & _).
  fold s3 in Hs3, Hq3, Hf3, Ha3.
  assert (s3.2 T_load_to_staging ≠ Some success) as Hload3.
  { by unfold s3; rewrite run_task_state_other. }
  destruct (run_task_skipped e s3 T_check_amount_mismatch T_load_to_staging)
    as [Hd4 Hno4]; [left|done|]. fold s4 in Hd4.
  destruct (run_task_not_run e s3 T_check_amount_mismatch Hno4) as (Hs4 & Hq4 & Hf4 & Ha4 & _).
  fold s4 in Hs4, Hq4, Hf4, Ha4.
  assert (s4.2 T_check_duplicates = Some upstream_failed) as Hdup4.
  { by unfold s4; rewrite run_task_state_other. }
  destruct (run_task_skipped e s4 T_transform_to_fact T_check_duplicates)
    as [Hd5 Hno5]; [left|congruence|]. fold s5 in Hd5.
  destruct (run_task_not_run e s4 T_transform_to_fact Hno5) as (Hs5 & Hq5 & Hf5 & Ha5 & _).
  fold s5 in Hs5, Hq5, Hf5, Ha5.
  destruct (run_task_skipped e s5 T_update_hourly_agg T_transform_to_fact)
    as [Hd6 Hno6]; [left|congruence|]. fold s6 in Hd6.
  destruct (run_task_not_run e s5 T_update_hourly_agg Hno6) as (Hs6 & Hq6 & Hf6 & Ha6 & _).
  fold s6 in Hs6, Hq6, Hf6, Ha6.
  destruct (run_task_skipped e s6 T_archive_files T_update_hourly_agg)
    as [Hd7 Hno7]; [left|congruence|]. fold s7 in Hd7.
  destruct (run_task_not_run e s6 T_archive_files Hno7) as (Hs7 & Hq7 & Hf7 & Ha7 & _).
  fold s7 in Hs7, Hq7, Hf7, Ha7.
  split; [congruence|]. split.
  { rewrite Hq7, Hq6, Hq5, Hq4, Hq3. by unfold s2, s1; rewrite !run_task_findings. }
  split.
  { rewrite Hf7, Hf6, Hf5, Hf4, Hf3. unfold s2, s1. rewrite !run_task_facts; auto. }
  split.
  { rewrite Ha7, Ha6, Ha5, Ha4, Ha3. unfold s2, s1. rewrite !run_task_aggregates; auto. }
  intros t. rewrite !elem_of_cons, elem_of_nil.
  intros [->|[->|[->|[->|[->|[]]]]]]; unfold s7, s6, s5, s4;
    rewrite ?run_task_state_other by done; done.
Qed.

(** A task all of whose upstream tasks succeeded is tried. *)
Lemma run_tried_conv (w : World) (t : task) :
  (∀ u, u ∈ upstream t → (run e w).2 u = Some success) →
  (run e w).2 t ≠ Some upstream_failed.
Proof.
  unfold run, schedule. cbn [foldl].
  destruct t; intros Hup; rewrite ?run_task_state_other by done;
    rewrite run_task_state_self;
    match goal with
    | |- context [all_success ?st ?t] =>
        assert (all_success st t = true) as ->;
          [|by destruct (execute _ _ _).2]
    end;
    apply all_success_spec; intros u Hu; specialize (Hup u Hu);
    cbn [upstream] in Hu; rewrite ?elem_of_cons, ?elem_of_nil in Hu;
    repeat match goal with H : _ ∨ _ |- _ => destruct H as [H|H] end;
    try done; subst u;
    rewrite ?run_task_state_other in Hup by done;
    rewrite ?run_task_state_other by done; exact Hup.
Qed.


End run_outcomes.

(** ** Duplicate order ids *)

Lemma cnt_NoDup (rows : list Order) :
  (∀ oid, cnt oid rows ≤ 1) ↔ NoDup (order_id <$> rows).
Proof.
  induction rows as [|o rows IH].
  - split; [constructor|]. intros _ oid. unfold cnt. cbn. lia.
  - rewrite fmap_cons, NoDup_cons, <-IH. unfold cnt in *. split.
    + intros Hcnt. split.
      * intros Hin%cnt_pos. specialize (Hcnt (order_id o)).
        rewrite filter_cons_True in Hcnt by done. unfold cnt in Hin.
        cbn [length] in Hcnt. lia.
      * intros oid. specialize (Hcnt oid). rewrite filter_cons in Hcnt.
        destruct (decide (order_id o = oid)); cbn [length] in Hcnt; lia.
    + intros [Hnew Hcnt] oid. rewrite filter_cons.
      destruct (decide (order_id o = oid)) as [<-|]; [|apply Hcnt].
      assert (¬ 0 < cnt (order_id o) rows) as Hzero by (by rewrite cnt_pos).
      unfold cnt in Hzero. cbn [length]. lia.
Qed.

Lemma check_duplicates_NoDup (now : TIMESTAMP) (staging_orders : list Order) :
  check_duplicates now staging_orders = true ↔
  NoDup (order_id <$> filter (in_window now) staging_orders).
Proof. by rewrite check_duplicates_spec, cnt_NoDup. Qed.

Lemma check_duplicates_date (now now' : TIMESTAMP) (staging_orders : list Order) :
  CURRENT_DATE now = CURRENT_DATE now' →
  check_duplicates now staging_orders = check_duplicates now' staging_orders.
Proof.
  intros Hdate. unfold check_duplicates, duplicate_groups.
  assert (filter (in_window now) staging_orders = filter (in_window now') staging_orders)
    as ->; [|done].
  apply list_filter_iff. intros o. unfold in_window. by rewrite Hdate.
Qed.

(** More staged rows never turn a failing check into a passing one. *)
Lemma check_duplicates_app (now : TIMESTAMP) (s k : list Order) :
  check_duplicates now (s ++ k) = true → check_duplicates now s = true.
Proof.
  rewrite !check_duplicates_NoDup, filter_app, fmap_app.
  by intros [? _]%NoDup_app.
Qed.

Lemma run_task_sensor_bucket (e : Env) (s : World * states) :
  bucket (run_task e s T_check_new_files).1
  = upload (arrivals e T_check_new_files) (bucket s.1).
Proof. unfold run_task. by destruct (all_success _ _). Qed.

Lemma run_sensor_state (e : Env) (w : World) :
  (run e w).2 T_check_new_files
  = Some (if check_new_files (upload (arrivals e T_check_new_files) (bucket w))
          then success else failed).
Proof.
  unfold run, schedule. cbn [foldl]. rewrite !run_task_state_other by done.
  by rewrite run_task_state_self.
Qed.

Lemma run_load_state (e : Env) (w : World) :
  (run e w).2 T_load_to_staging = Some success →
  is_Some (load_to_staging (empty_load_ok e)
             (upload (arrivals e T_load_to_staging)
                (upload (arrivals e T_check_new_files) (bucket w)))
             (staging w)).
Proof.
  unfold run, schedule. cbn [foldl]. rewrite !run_task_state_other by done.
  rewrite run_task_state_self.
  set (s1 := run_task e (w, λ _, None) T_check_new_files).
  destruct (all_success s1.2 T_load_to_staging); [|done].
  cbn [execute with_bucket bucket staging].
  assert (staging s1.1 = staging w) as -> by (by unfold s1; rewrite run_task_staging).
  unfold s1. rewrite run_task_sensor_bucket. cbn [fst].
  by destruct (load_to_staging _ _ _).
Qed.

(** ** The load pattern and the archiver's test *)

Section suffixes.
Implicit Types (s suffix x : string).

Lemma endswith_cons (a : ascii) s suffix :
  Py.endswith (String a s) suffix = true →
  Py.endswith s suffix = true ∨ String a s = suffix.
Proof.
  unfold Py.endswith. cbn [String.length].
  intros [Hlen%bool_decide_eq_true Hsub%bool_decide_eq_true]%andb_true_iff.
  destruct (decide (String.length suffix ≤ String.length s)%nat) as [Hle|Hgt].
  - left. apply andb_true_iff. split; apply bool_decide_eq_true; [done|].
    replace (S (String.length s) - String.length suffix)%nat
      with (S (String.length s - String.length suffix)) in Hsub by lia.
    exact Hsub.
  - right. replace (S (String.length s) - String.length suffix)%nat with 0%nat in Hsub by lia.
    assert (String.length suffix = String.length (String a s)) as Heq by (cbn; lia).
    rewrite Heq in Hsub. by rewrite substring_all in Hsub.
Qed.

Lemma endswith_inv s suffix : Py.endswith s suffix = true → ∃ x, s = x +:+ suffix.
Proof.
  induction s as [|a s IH].
  - unfold Py.endswith. cbn.
    intros [Hlen%bool_decide_eq_true _]%andb_true_iff.
    destruct suffix; [by exists ""|cbn in Hlen; lia].
  - intros [Hs|Heq]%endswith_cons.
    + destruct (IH Hs) as [x ->]. by exists (String a x).
    + exists "". by rewrite Heq.
Qed.

Lemma wildcard_star_app x : wildcard "*.json" (x +:+ ".json") = true.
Proof.
  induction x as [|a x IH]; [done|].
  change (String a x +:+ ".json") with (String a (x +:+ ".json")).
  rewrite wildcard_star, IH. apply orb_true_r.
Qed.

Lemma wildcard_same_char (a : ascii) (p : string) s :
  a ≠ "*"%char → wildcard (String a p) (String a s) = wildcard p s.
Proof.
  intros Ha. cbn. rewrite bool_decide_false by done. by rewrite bool_decide_true.
Qed.

(** The pattern of the load job and the test of the archiver select the
    same names. *)
Lemma source_objects_iff s :
  wildcard source_objects s = true ↔
  Py.startswith s GCS_ORDER_PREFIX = true ∧ Py.endswith s ".json" = true.
Proof.
  split; [apply source_objects_name|].
  intros [[r ->]%prefix_app Hends].
  assert (Py.endswith r ".json" = true) as [x ->]%endswith_inv.
  { unfold GCS_ORDER_PREFIX in Hends.
    change ("landing/orders/" +:+ r)
      with (String "l" (String "a" (String "n" (String "d" (String "i" (String "n"
           (String "g" (String "/" (String "o" (String "r" (String "d" (String "e"
           (String "r" (String "s" (String "/" r))))))))))))))) in Hends.
    repeat (apply endswith_cons in Hends as [Hends|Hends]; [|discriminate Hends]).
    exact Hends. }
  change source_objects with "landing/orders/*.json".
  change (GCS_ORDER_PREFIX +:+ x +:+ ".json")
    with (String "l" (String "a" (String "n" (String "d" (String "i" (String "n"
         (String "g" (String "/" (String "o" (String "r" (String "d" (String "e"
         (String "r" (String "s" (String "/" (x +:+ ".json")))))))))))))))).
  rewrite !wildcard_same_char by done. apply (wildcard_star_app x).
Qed.

End suffixes.

(** ** Where the archiver puts an object *)

Section replace.
Variables (old new : string).



End replace.


Section archive_moves.
Variables (timestamp k : string) (v : Blob) (service : string → rename_outcome).
Hypothesis Hk : Py.startswith k GCS_ORDER_PREFIX = true.




End archive_moves.



(** ** The consistency test at its threshold *)

(** The test of line 118 is one of FLOAT64. The FLOAT64 nearest to 19.99
    against a recorded 20.00 is selected: the difference rounds to a FLOAT64
    above [cent], where the decimal numbers differ by 0.01 exactly. A sum of
    0.00 against a recorded [cent] is not selected, although [cent] is above
    1/100. *)
Lemma mismatch_at_threshold :
  let near := (1999 / 100)%float in
  mismatch Sample.round_cents
    (Sample.order "O10" "CUST-1000" Sample.t0 [Sample.line "PROD-1000" 1 near] 20%float)
  ∧ ¬ mismatch Sample.round_cents
        (Sample.order "O11" "CUST-1000" Sample.t0 [Sample.line "PROD-1000" 1 0%float] cent).
Proof.
  intros near. split.
  - vm_compute. reflexivity.
  - intros H. vm_compute in H. discriminate H.
Qed.

(** * The claims *)

(** C1. Re-running the Fact Merge insert over an unchanged window (same
    staged rows, same current date) after a previous run inserts no row,
    whatever the dimension tables are at either run; and an order id that is
    already present in the fact store is the id of no inserted row. *)
Theorem transform_to_fact_idempotent (now now' : TIMESTAMP) (staging_orders : list Order)
    (dc dc' : list Customer) (dp dp' : list Product) (fact_orders : list FactOrderLine) :
  CURRENT_DATE now' = CURRENT_DATE now →
  fact_rows_inserted now' staging_orders dc' dp'
    (transform_to_fact now staging_orders dc dp fact_orders) = []
  ∧ ∀ oid, oid ∈ f_order_id <$> fact_orders →
      oid ∉ f_order_id <$> fact_rows_inserted now staging_orders dc dp fact_orders.
Proof.
  intros Hdate. split.
  - unfold fact_rows_inserted at 1.
    rewrite filter_none; [done|]. intros o Ho [Hd Hnew]. apply Hnew.
    unfold transform_to_fact. rewrite fmap_app, elem_of_app.
    destruct (decide (order_id o ∈ f_order_id <$> fact_orders)) as [|Hfresh]; [by left|].
    right. apply inserted_order_id. exists o. repeat split; [done| |done..].
    by rewrite Hd.
  - intros oid Hin (o & _ & [_ Hnew] & <-)%inserted_order_id. done.
Qed.

Lemma transform_to_fact_idempotent_witness :
  fact_rows_inserted Sample.t0 [Sample.O1; Sample.O5] [] []
    (transform_to_fact Sample.t0 [Sample.O1; Sample.O5] Sample.sample_customers
       Sample.sample_products []) = []
  ∧ ∀ oid, oid ∈ f_order_id <$> [] →
      oid ∉ f_order_id <$> fact_rows_inserted Sample.t0 [Sample.O1; Sample.O5]
              Sample.sample_customers Sample.sample_products [].
Proof.
  apply (transform_to_fact_idempotent Sample.t0 Sample.t0 [Sample.O1; Sample.O5]
           Sample.sample_customers [] Sample.sample_products [] []).
  reflexivity.
Defined.




(** C2. When the staged rows of the window hold an order id more than once,
    the duplicate check fails, Fact Merge and the tasks after it do not
    run, and the fact store and the aggregates are left as they were. *)
Theorem duplicates_fail_before_fact_merge (e : Env) (w : World) (oid : string) :
  (run e w).2 T_load_to_staging = Some success →
  1 < cnt oid (filter (in_window (clock e T_check_duplicates)) (staging (run e w).1)) →
  (run e w).2 T_check_duplicates = Some failed
  ∧ (run e w).2 T_transform_to_fact = Some upstream_failed
  ∧ (run e w).2 T_update_hourly_agg = Some upstream_failed
  ∧ (run e w).2 T_archive_files = Some upstream_failed
  ∧ facts (run e w).1 = facts w
  ∧ aggregates (run e w).1 = aggregates w
  ∧ ¬ run_succeeded (run e w).
Proof.
  intros Hload Hdup. destruct (run_loaded e w Hload) as (_ & _ & Hstate & Hrest).
  rewrite (check_duplicates_fails _ _ oid Hdup) in Hstate, Hrest.
  destruct Hrest as (Hfact & Hagg & Harch & Hfacts & Haggs).
  repeat split; try done.
  intros Hall. specialize (Hall T_check_duplicates). congruence.
Qed.

Lemma duplicates_fail_before_fact_merge_witness :
  let w := Sample.world
             {["landing/orders/orders_1.json" := Sample.file [Sample.O1; Sample.O3; Sample.O3]]}
             [] in
  (run Sample.env w).2 T_check_duplicates = Some failed
  ∧ (run Sample.env w).2 T_transform_to_fact = Some upstream_failed
  ∧ (run Sample.env w).2 T_update_hourly_agg = Some upstream_failed
  ∧ (run Sample.env w).2 T_archive_files = Some upstream_failed
  ∧ facts (run Sample.env w).1 = facts w
  ∧ aggregates (run Sample.env w).1 = aggregates w
  ∧ ¬ run_succeeded (run Sample.env w).
Proof.
  intros w. apply (duplicates_fail_before_fact_merge Sample.env w "O3").
  - vm_compute. reflexivity.
  - vm_compute. reflexivity.
Defined.




(** C5. The code at a staged order without line items and with a recorded
    total of 50.00: the calculated total is NULL instead of 0, whatever
    [ROUND] does, and although the recorded total differs from 0 by more
    than 0.01 in FLOAT64, no finding is appended. *)
Theorem zero_items_mismatch_not_recorded :
  items Sample.O5 = []
  ∧ in_window Sample.t0 Sample.O5
  ∧ (cent <? abs (0 - total_amount Sample.O5))%float = true
  ∧ (∀ r, calculated_total r Sample.O5 = None)
  ∧ (∀ r, check_amount_mismatch Sample.t0 (uuids Sample.env) r [Sample.O5] [] = []).
Proof. repeat split. Qed.

(** C7. After the Aggregate Updater, every row stored under an hour of the
    current window is the fresh recomputation of that hour from the fact
    store, stamped with the time of the run, whatever was stored before;
    when the hour was absent one row is inserted, and when it was present
    its rows are overwritten and none is added. *)
Theorem hourly_metric_recomputed (now : TIMESTAMP) (fact_orders : list FactOrderLine)
    (T : list HourlyMetric) (h : TIMESTAMP) :
  h ∈ TIMESTAMP_TRUNC_HOUR ∘ f_order_timestamp <$> filter (fact_in_window now) fact_orders →
  let group :=
    filter (λ f, fact_in_window now f ∧ TIMESTAMP_TRUNC_HOUR (f_order_timestamp f) = h)
      fact_orders in
  let fresh :=
    {| metric_hour := h;
       total_orders := COUNT_DISTINCT (f_order_id <$> group);
       total_revenue := SUM (Some ∘ f_total_amount <$> group);
       avg_order_value := AVG (Some ∘ f_total_amount <$> group);
       unique_customers := COUNT_DISTINCT (f_customer_id <$> group);
       updated_at := now |} in
  let T' := update_hourly_agg now fact_orders T in
  (∀ row, row ∈ T' → metric_hour row = h → row = fresh)
  ∧ length (filter (λ r, metric_hour r = h) T')
    = (1 `max` length (filter (λ r, metric_hour r = h) T))%nat.
Proof.
  intros Hh group fresh T'. split.
  - intros row Hrow Hhour. unfold T', update_hourly_agg in Hrow.
    apply merge_hourly_row in Hrow; [|rewrite Hhour; by apply elem_of_remove_dups].
    assert (hour_group h (filter (fact_in_window now) fact_orders) = group) as Hgroup.
    { unfold hour_group, group. rewrite list_filter_filter.
      apply list_filter_iff. intros f. tauto. }
    rewrite Hhour, Hgroup in Hrow. by rewrite Hrow.
  - apply merge_hourly_count; [apply hourly_sources_NoDup|].
    rewrite hourly_sources_hours. by apply elem_of_remove_dups.
Qed.

Lemma hourly_metric_recomputed_witness :
  let fact_orders :=
    transform_to_fact Sample.t0 [Sample.O6; Sample.O7] Sample.sample_customers
      Sample.sample_products [] in
  let T :=
    update_hourly_agg Sample.t0
      (transform_to_fact Sample.t0 [Sample.O6] Sample.sample_customers
         Sample.sample_products []) [] in
  let now := Sample.t0 + 900000000 in
  let group :=
    filter (λ f, fact_in_window now f
                 ∧ TIMESTAMP_TRUNC_HOUR (f_order_timestamp f) = Sample.t0) fact_orders in
  let fresh :=
    {| metric_hour := Sample.t0;
       total_orders := COUNT_DISTINCT (f_order_id <$> group);
       total_revenue := SUM (Some ∘ f_total_amount <$> group);
       avg_order_value := AVG (Some ∘ f_total_amount <$> group);
       unique_customers := COUNT_DISTINCT (f_customer_id <$> group);
       updated_at := now |} in
  let T' := update_hourly_agg now fact_orders T in
  (∀ row, row ∈ T' → metric_hour row = Sample.t0 → row = fresh)
  ∧ length (filter (λ r, metric_hour r = Sample.t0) T')
    = (1 `max` length (filter (λ r, metric_hour r = Sample.t0) T))%nat.
Proof.
  intros fact_orders T now.
  apply (hourly_metric_recomputed now fact_orders T Sample.t0).
  vm_compute. left.
Defined.

(** C4. The code at a fact store holding one order of one line item for
    10.00 and one order of three line items for 30.00, in the same hour: the
    stored revenue is 100 where the totals taken once per order add up to 40,
    and the stored average is 100/4 where 40 over the two orders is 20. All
    these sums and quotients are exact in FLOAT64. *)
Theorem revenue_multiplied_by_line_items :
  let fact_orders :=
    transform_to_fact Sample.t0 [Sample.O6; Sample.O7] Sample.sample_customers
      Sample.sample_products [] in
  (total_amount Sample.O6 + total_amount Sample.O7 = 40)%float
  ∧ length (filter (λ f, f_order_id f = "O6") fact_orders) = 1%nat
  ∧ length (filter (λ f, f_order_id f = "O7") fact_orders) = 3%nat
  ∧ update_hourly_agg Sample.t0 fact_orders []
    = [{| metric_hour := Sample.t0;
          total_orders := 2;
          total_revenue := Some 100%float;
          avg_order_value := Some (100 / 4)%float;
          unique_customers := 2;
          updated_at := Sample.t0 |}]
  ∧ 100%float ≠ 40%float
  ∧ (100 / 4)%float ≠ (40 / 2)%float.
Proof.
  intros fact_orders. split; [|split; [|split; [|split; [|split]]]].
  - vm_compute. reflexivity.
  - vm_compute. reflexivity.
  - vm_compute. reflexivity.
  - vm_compute. reflexivity.
  - intros H. apply (f_equal (λ x, (x =? 40)%float)) in H. vm_compute in H. discriminate H.
  - intros H. apply (f_equal (λ x, (x =? 20)%float)) in H. vm_compute in H. discriminate H.
Qed.

(** C9. A staged row dated on another day than the current date of the
    tasks changes nothing: the duplicate check, the consistency check and
    Fact Merge give the same result without it, the fact rows it would yield
    are left out of the hourly aggregates, and the whole run ends in the same
    task states, findings, fact store, aggregates and bucket. *)
Theorem other_day_rows_ignored (e : Env) (w : World) (s1 s2 : list Order) (o : Order) :
  (∀ t, DATE (order_timestamp o) ≠ CURRENT_DATE (clock e t)) →
  check_duplicates (clock e T_check_duplicates) (s1 ++ o :: s2)
  = check_duplicates (clock e T_check_duplicates) (s1 ++ s2)
  ∧ (∀ dq, check_amount_mismatch (clock e T_check_amount_mismatch) (uuids e) (round2 e)
             (s1 ++ o :: s2) dq
           = check_amount_mismatch (clock e T_check_amount_mismatch) (uuids e) (round2 e)
               (s1 ++ s2) dq)
  ∧ (∀ dc dp f, transform_to_fact (clock e T_transform_to_fact) (s1 ++ o :: s2) dc dp f
                = transform_to_fact (clock e T_transform_to_fact) (s1 ++ s2) dc dp f)
  ∧ (∀ dc dp r f1 f2 T, r ∈ joined_rows dc dp o →
       update_hourly_agg (clock e T_update_hourly_agg) (f1 ++ r :: f2) T
       = update_hourly_agg (clock e T_update_hourly_agg) (f1 ++ f2) T)
  ∧ (let r := run e (with_staging w (s1 ++ o :: s2)) in
     let r' := run e (with_staging w (s1 ++ s2)) in
     r.2 = r'.2
     ∧ findings r.1 = findings r'.1
     ∧ facts r.1 = facts r'.1
     ∧ aggregates r.1 = aggregates r'.1
     ∧ bucket r.1 = bucket r'.1).
Proof.
  intros Hout.
  assert (∀ t, filter (in_window (clock e t)) (s1 ++ o :: s2)
               = filter (in_window (clock e t)) (s1 ++ s2)) as Hwin.
  { intros t. apply window_skips, Hout. }
  split; [|split; [|split; [|split]]].
  - apply check_duplicates_window, Hwin.
  - intros dq. unfold check_amount_mismatch. f_equal. apply findings_inserted_window, Hwin.
  - intros dc dp f. unfold transform_to_fact. f_equal. apply fact_rows_inserted_window, Hwin.
  - intros dc dp r f1 f2 T [_ Hts]%joined_rows_order.
    apply update_hourly_agg_window, fact_window_skips.
    unfold fact_in_window. rewrite Hts. apply Hout.
  - intros r r'.
    destruct (run_agree e (with_staging w (s1 ++ o :: s2)) (with_staging w (s1 ++ s2)))
      as (? & ? & ? & ? & ? & _); [|done].
    unfold agree. cbn. repeat split; try done.
Qed.

Lemma other_day_rows_ignored_witness :
  let e := Sample.env in
  let w := Sample.world
             {["landing/orders/orders_1.json" := Sample.file [Sample.O1]]} [] in
  let o := Sample.order "O9" "CUST-1000" Sample.yesterday [Sample.line "PROD-1000" 1 10%float]
             99%float in
  let s1 := [Sample.O3] in
  let s2 := [Sample.O6] in
  check_duplicates (clock e T_check_duplicates) (s1 ++ o :: s2)
  = check_duplicates (clock e T_check_duplicates) (s1 ++ s2)
  ∧ (∀ dq, check_amount_mismatch (clock e T_check_amount_mismatch) (uuids e) (round2 e)
             (s1 ++ o :: s2) dq
           = check_amount_mismatch (clock e T_check_amount_mismatch) (uuids e) (round2 e)
               (s1 ++ s2) dq)
  ∧ (∀ dc dp f, transform_to_fact (clock e T_transform_to_fact) (s1 ++ o :: s2) dc dp f
                = transform_to_fact (clock e T_transform_to_fact) (s1 ++ s2) dc dp f)
  ∧ (∀ dc dp r f1 f2 T, r ∈ joined_rows dc dp o →
       update_hourly_agg (clock e T_update_hourly_agg) (f1 ++ r :: f2) T
       = update_hourly_agg (clock e T_update_hourly_agg) (f1 ++ f2) T)
  ∧ (let r := run e (with_staging w (s1 ++ o :: s2)) in
     let r' := run e (with_staging w (s1 ++ s2)) in
     r.2 = r'.2
     ∧ findings r.1 = findings r'.1
     ∧ facts r.1 = facts r'.1
     ∧ aggregates r.1 = aggregates r'.1
     ∧ bucket r.1 = bucket r'.1).
Proof.
  intros e w o s1 s2. apply (other_day_rows_ignored e w s1 s2 o).
  intros t. vm_compute. discriminate.
Defined.

(** C10. An object under the landing prefix whose name does not end in
    [.json], and that no upload replaces, is still there after any number of
    runs; no load job reads it and no archiver moves it, whether the
    renames of the archiver are served or raise, and it alone makes the
    sensor of every further run succeed. *)
Theorem non_json_object_never_processed (es : list Env) (w : World)
    (name : string) (blob : Blob) :
  bucket w !! name = Some blob →
  Py.startswith name GCS_ORDER_PREFIX = true →
  Py.endswith name ".json" = false →
  (∀ e t, e ∈ es → name ∉ (arrivals e t).*1) →
  let w' := runs es w in
  bucket w' !! name = Some blob
  ∧ check_new_files (bucket w') = true
  ∧ (∀ b : Bucket, name ∉ (load_set b).*1)
  ∧ (∀ timestamp service,
       (archive_files timestamp service (bucket w')).1 !! name = Some blob)
  ∧ (∀ e, (∀ t, name ∉ (arrivals e t).*1) →
       (run e w').2 T_check_new_files = Some success
       ∧ bucket (run e w').1 !! name = Some blob).
Proof.
  intros Hname Hprefix Hjson Harr w'.
  assert (bucket w' !! name = Some blob) as Hkept by by apply runs_keep.
  split; [done|]. split; [by eapply check_new_files_true|]. split; [|split].
  - intros b ([n v] & Heq & [_ Hwild]%load_set_elem)%list_elem_of_fmap.
    cbn in Heq. subst n. apply source_objects_name in Hwild as [_ Hends]. congruence.
  - intros timestamp service. by apply archive_files_keeps.
  - intros e He. split; [by eapply run_sensor|by apply run_keeps].
Qed.

Lemma non_json_object_never_processed_witness :
  let name := "landing/orders/_SUCCESS" in
  let blob := {| records := None |} in
  let w := Sample.world
             (<[name := blob]>
                {["landing/orders/orders_1.json" := Sample.file [Sample.O1]]}) [] in
  let w' := runs [Sample.env; Sample.env] w in
  bucket w' !! name = Some blob
  ∧ check_new_files (bucket w') = true
  ∧ (∀ b : Bucket, name ∉ (load_set b).*1)
  ∧ (∀ timestamp service,
       (archive_files timestamp service (bucket w')).1 !! name = Some blob)
  ∧ (∀ e, (∀ t, name ∉ (arrivals e t).*1) →
       (run e w').2 T_check_new_files = Some success
       ∧ bucket (run e w').1 !! name = Some blob).
Proof.
  intros name blob w.
  apply (non_json_object_never_processed [Sample.env; Sample.env] w name blob).
  - vm_compute. reflexivity.
  - vm_compute. reflexivity.
  - vm_compute. reflexivity.
  - intros e t He. assert (e = Sample.env) as ->.
    { apply elem_of_cons in He as [->|He]; [done|].
      apply elem_of_cons in He as [->|He]; [done|]. by apply elem_of_nil in He. }
    apply not_elem_of_nil.
Defined.

(** C8. The code at a run during which a second file lands after the load
    and before the archiver, every rename being served: every task
    succeeds, the load set held the
    first file only and only its order is staged, yet the archiver, which
    lists the bucket again, moves the second file as well; its order was
    never loaded and no later sensor or load job sees it. *)
Theorem late_arrival_archived_unloaded :
  let w := Sample.world
             {["landing/orders/orders_1.json" := Sample.file [Sample.O1]]} [] in
  let late := ("landing/orders/orders_2.json", Sample.file [Sample.O6]) in
  let r := run (Sample.env_late [late]) w in
  run_succeeded r
  ∧ (load_set (bucket w)).*1 = ["landing/orders/orders_1.json"]
  ∧ staging r.1 = [Sample.O1]
  ∧ bucket r.1 !! "landing/orders/orders_2.json" = None
  ∧ bucket r.1 !! "archive/20240101_100000/orders/orders_2.json"
    = Some (Sample.file [Sample.O6])
  ∧ check_new_files (bucket r.1) = false
  ∧ load_set (bucket r.1) = [].
Proof.
  intros w late r. split; [|repeat split; vm_compute; reflexivity].
  intros t. destruct t; vm_compute; reflexivity.
Qed.

(** * Further properties *)

(** X1. The region of a state: West for CA, OR and WA, East for NY, NJ and
    PA, South for TX, AZ and NM, and Other for every other state and for a
    NULL state. *)
Theorem region_cases (st : option string) :
  (region st = "West" ↔ st ∈ [Some "CA"; Some "OR"; Some "WA"])
  ∧ (region st = "East" ↔ st ∈ [Some "NY"; Some "NJ"; Some "PA"])
  ∧ (region st = "South" ↔ st ∈ [Some "TX"; Some "AZ"; Some "NM"])
  ∧ (region st = "Other" ↔
     st ∉ [Some "CA"; Some "OR"; Some "WA"; Some "NY"; Some "NJ"; Some "PA";
           Some "TX"; Some "AZ"; Some "NM"]).
Proof.
  destruct st as [s|]; unfold region, IN.
  - destruct (decide (s ∈ ["CA"; "OR"; "WA"])) as [H1|H1];
      [rewrite (bool_decide_true _ H1)|rewrite (bool_decide_false _ H1);
       destruct (decide (s ∈ ["NY"; "NJ"; "PA"])) as [H2|H2];
       [rewrite (bool_decide_true _ H2)|rewrite (bool_decide_false _ H2);
        destruct (decide (s ∈ ["TX"; "AZ"; "NM"])) as [H3|H3];
        [rewrite (bool_decide_true _ H3)|rewrite (bool_decide_false _ H3)]]];
      rewrite ?elem_of_cons, ?not_elem_of_cons, ?elem_of_nil in *;
      repeat split; try discriminate; intuition (try discriminate; congruence).
  - rewrite ?elem_of_cons, ?not_elem_of_cons, ?elem_of_nil.
    repeat split; try discriminate; intuition (try discriminate; congruence).
Qed.

(** X2. A missing dimension row never drops a fact row: for an order whose
    customer is not in [dim_customers] and whose products are not in
    [dim_products], Fact Merge still yields one row per line item (one row
    when there is none), each with tier [bronze] and with NULL product name
    and category. *)
Theorem missing_dimensions_default (dc : list Customer) (dp : list Product) (o : Order) :
  customer_id o ∉ c_customer_id <$> dc →
  (∀ it, it ∈ items o → product_id it ∉ Some ∘ p_product_id <$> dp) →
  length (joined_rows dc dp o) = (1 `max` length (items o))%nat
  ∧ ∀ r, r ∈ joined_rows dc dp o →
      f_customer_tier r = "bronze" ∧ f_product_name r = None ∧ f_category r = None.
Proof.
  intros Hc Hp.
  assert (left_matches (λ c, customer_id o = c_customer_id c) dc = [None]) as Hcust.
  { apply left_matches_none. intros c Hin Heq. apply Hc, list_elem_of_fmap. eauto. }
  assert (∀ item, item ∈ left_unnest (items o) →
            left_matches (λ p, item ≫= product_id = Some (p_product_id p)) dp = [None])
    as Hprod.
  { intros item Hitem. apply left_matches_none. intros p Hin Heq.
    apply left_unnest_elem in Hitem as [[-> _]|(it & -> & Hit)]; [done|].
    apply (Hp it Hit), list_elem_of_fmap. exists p. split; [|done]. cbn in Heq. by rewrite Heq. }
  unfold joined_rows. rewrite Hcust. split.
  - rewrite (bind_length_const _ 1), left_unnest_length; [lia|].
    intros item Hitem. cbn. by rewrite (Hprod item Hitem).
  - intros r (item & Hr & Hitem)%list_elem_of_bind.
    cbn in Hr. rewrite (Hprod item Hitem) in Hr. cbn in Hr.
    by apply list_elem_of_singleton in Hr as ->.
Qed.

Lemma missing_dimensions_default_witness :
  length (joined_rows Sample.sample_customers Sample.sample_products
            (Sample.order "O8" "CUST-4000" Sample.t0 [Sample.line "PROD-9999" 2 7%float] 14%float))
  = (1 `max` 1)%nat
  ∧ ∀ r, r ∈ joined_rows Sample.sample_customers Sample.sample_products
               (Sample.order "O8" "CUST-4000" Sample.t0 [Sample.line "PROD-9999" 2 7%float]
                  14%float) →
      f_customer_tier r = "bronze" ∧ f_product_name r = None ∧ f_category r = None.
Proof.
  apply (missing_dimensions_default Sample.sample_customers Sample.sample_products
           (Sample.order "O8" "CUST-4000" Sample.t0 [Sample.line "PROD-9999" 2 7%float] 14%float)).
  - intros Hin. apply list_elem_of_singleton in Hin. discriminate Hin.
  - intros it Hit Hin. apply list_elem_of_singleton in Hit as ->.
    apply list_elem_of_singleton in Hin. discriminate Hin.
Defined.



(** X4. The Aggregate Updater leaves every other hour alone: the rows stored
    under an hour that no fact row of the current window falls in are the same
    before and after, [updated_at] included. *)
Theorem hourly_merge_leaves_other_hours (now : TIMESTAMP)
    (fact_orders : list FactOrderLine) (T : list HourlyMetric) (h : TIMESTAMP) :
  h ∉ TIMESTAMP_TRUNC_HOUR ∘ f_order_timestamp <$> filter (fact_in_window now) fact_orders →
  filter (λ r, metric_hour r = h) (update_hourly_agg now fact_orders T)
  = filter (λ r, metric_hour r = h) T.
Proof.
  intros Hh. unfold update_hourly_agg.
  assert (h ∉ s_metric_hour <$> hourly_sources now fact_orders) as HS.
  { rewrite hourly_sources_hours. by rewrite elem_of_remove_dups. }
  unfold merge_hourly. rewrite filter_app.
  rewrite (filter_none _ (not_matched_insert now <$> _)).
  2:{ intros r (s & -> & [_ Hs]%list_elem_of_filter)%list_elem_of_fmap Heq.
      apply HS, list_elem_of_fmap. exists s. split; [by rewrite <-Heq|done]. }
  rewrite app_nil_r. apply filter_fmap_fixed.
  - intros t. by rewrite merge_hourly_keeps_hour.
  - intros t Ht. destruct (list_find _ _) as [[i s]|] eqn:Hfind; [|done].
    apply list_find_Some in Hfind as (Hs%list_elem_of_lookup_2 & Heq & _).
    exfalso. apply HS, list_elem_of_fmap. exists s. split; [congruence|done].
Qed.

Lemma hourly_merge_leaves_other_hours_witness :
  let T := [{| metric_hour := Sample.yesterday; total_orders := 3;
               total_revenue := Some 150%float; avg_order_value := Some 50%float;
               unique_customers := 3; updated_at := Sample.yesterday |}] in
  let fact_orders :=
    transform_to_fact Sample.t0 [Sample.O6; Sample.O7] Sample.sample_customers
      Sample.sample_products [] in
  filter (λ r, metric_hour r = Sample.yesterday) (update_hourly_agg Sample.t0 fact_orders T)
  = filter (λ r, metric_hour r = Sample.yesterday) T.
Proof.
  intros T fact_orders.
  apply (hourly_merge_leaves_other_hours Sample.t0 fact_orders T Sample.yesterday).
  intros Hin. apply list_elem_of_In in Hin. vm_compute in Hin.
  repeat (destruct Hin as [Hin|Hin]; [discriminate Hin|]). destruct Hin.
Defined.

(** X5. The Aggregate Updater keeps [agg_hourly_metrics] keyed: when no two
    stored rows share a [metric_hour] before the task, none do after it. *)
Theorem hourly_merge_keeps_key (now : TIMESTAMP) (fact_orders : list FactOrderLine)
    (T : list HourlyMetric) :
  NoDup (metric_hour <$> T) →
  NoDup (metric_hour <$> update_hourly_agg now fact_orders T).
Proof.
  intros HT. unfold update_hourly_agg. rewrite merge_hourly_hours.
  apply NoDup_app. split; [done|]. split.
  - intros h Hh (s & -> & [Hout _]%list_elem_of_filter)%list_elem_of_fmap. done.
  - apply NoDup_fmap_filter, hourly_sources_NoDup.
Qed.

Lemma hourly_merge_keeps_key_witness :
  let fact_orders :=
    transform_to_fact Sample.t0 [Sample.O6; Sample.O7] Sample.sample_customers
      Sample.sample_products [] in
  let T :=
    [{| metric_hour := Sample.t0; total_orders := 1;
        total_revenue := Some 10%float; avg_order_value := Some 10%float;
        unique_customers := 1; updated_at := Sample.t0 - 900000000 |};
     {| metric_hour := Sample.yesterday; total_orders := 3;
        total_revenue := Some 150%float; avg_order_value := Some 50%float;
        unique_customers := 3; updated_at := Sample.yesterday |}] in
  Sample.t0 ∈ TIMESTAMP_TRUNC_HOUR ∘ f_order_timestamp
                <$> filter (fact_in_window Sample.t0) fact_orders
  ∧ NoDup (metric_hour <$> update_hourly_agg Sample.t0 fact_orders T).
Proof.
  intros fact_orders T. split.
  - vm_compute. left.
  - apply (hourly_merge_keeps_key Sample.t0 fact_orders T).
    apply (bool_decide_unpack _). vm_compute. exact I.
Defined.


(** X7. The duplicate check passes exactly when the order ids of the staged
    rows of the current window are pairwise distinct. *)
Theorem duplicate_check_passes_iff (now : TIMESTAMP) (staging_orders : list Order) :
  check_duplicates now staging_orders = true ↔
  NoDup (order_id <$> filter (in_window now) staging_orders).
Proof. apply check_duplicates_NoDup. Qed.

(** X8. A failed duplicate check is not healed by a later run: no task
    removes staged rows, so every later run on the same date whose load
    succeeds fails at the duplicate check again. *)
Theorem duplicate_failure_persists (e1 e2 : Env) (w : World) :
  (run e1 w).2 T_check_duplicates = Some failed →
  CURRENT_DATE (clock e2 T_check_duplicates) = CURRENT_DATE (clock e1 T_check_duplicates) →
  (run e2 (run e1 w).1).2 T_load_to_staging = Some success →
  (run e2 (run e1 w).1).2 T_check_duplicates = Some failed.
Proof.
  intros Hfail Hdate Hload2.
  assert ((run e1 w).2 T_load_to_staging = Some success) as Hload1.
  { apply (run_tried e1 w T_check_duplicates); [congruence|left]. }
  destruct (run_loaded e1 w Hload1) as (_ & _ & Hdup1 & _).
  destruct (run_loaded e2 (run e1 w).1 Hload2) as (_ & _ & Hdup2 & _).
  rewrite Hdup2. clear Hdup2.
  destruct (run_tasks_extend e2 schedule ((run e1 w).1, λ _, None)) as ([k Hk] & _ & _).
  change (foldl (run_task e2) ((run e1 w).1, λ _, None) schedule)
    with (run e2 (run e1 w).1) in Hk.
  cbn [fst] in Hk. rewrite Hk.
  destruct (check_duplicates (clock e2 T_check_duplicates) (staging (run e1 w).1 ++ k))
    eqn:Hcheck; [|done].
  apply check_duplicates_app in Hcheck.
  rewrite (check_duplicates_date _ _ _ Hdate) in Hcheck.
  rewrite Hcheck in Hdup1. congruence.
Qed.

Lemma duplicate_failure_persists_witness :
  let w := Sample.world
             {["landing/orders/orders_1.json" := Sample.file [Sample.O3; Sample.O3]]} [] in
  (run Sample.env (run Sample.env w).1).2 T_check_duplicates = Some failed.
Proof.
  intros w. apply (duplicate_failure_persists Sample.env Sample.env w).
  - vm_compute. reflexivity.
  - reflexivity.
  - vm_compute. reflexivity.
Defined.

(** X9. A record that violates the schema is fatal for the run: when an
    object of the load set holds one, the load does not succeed, nothing is
    appended to the staged rows, the findings, the fact store and the
    aggregates are left as they were, and no later task is tried. *)
Theorem invalid_record_fails_run (e : Env) (w : World) (n : string) (blob : Blob) :
  upload (arrivals e T_load_to_staging)
    (upload (arrivals e T_check_new_files) (bucket w)) !! n = Some blob →
  wildcard source_objects n = true →
  records blob = None →
  (run e w).2 T_load_to_staging ≠ Some success
  ∧ staging (run e w).1 = staging w
  ∧ findings (run e w).1 = findings w
  ∧ facts (run e w).1 = facts w
  ∧ aggregates (run e w).1 = aggregates w
  ∧ ∀ t, t ∈ [T_check_duplicates; T_check_amount_mismatch; T_transform_to_fact;
              T_update_hourly_agg; T_archive_files] →
         (run e w).2 t = Some upstream_failed.
Proof.
  intros Hb Hn Hrec.
  assert ((run e w).2 T_load_to_staging ≠ Some success) as Hload.
  { intros [rows Hrows]%run_load_state.
    by rewrite (load_to_staging_invalid _ _ _ n blob Hb Hn Hrec) in Hrows. }
  split; [done|]. by apply run_not_loaded.
Qed.

Lemma invalid_record_fails_run_witness :
  let w := Sample.world
             (<["landing/orders/orders_2.json" := {| records := None |}]>
                {["landing/orders/orders_1.json" := Sample.file [Sample.O1]]}) [] in
  (run Sample.env w).2 T_load_to_staging ≠ Some success
  ∧ staging (run Sample.env w).1 = staging w
  ∧ findings (run Sample.env w).1 = findings w
  ∧ facts (run Sample.env w).1 = facts w
  ∧ aggregates (run Sample.env w).1 = aggregates w
  ∧ ∀ t, t ∈ [T_check_duplicates; T_check_amount_mismatch; T_transform_to_fact;
              T_update_hourly_agg; T_archive_files] →
         (run Sample.env w).2 t = Some upstream_failed.
Proof.
  intros w.
  apply (invalid_record_fails_run Sample.env w "landing/orders/orders_2.json"
           {| records := None |}).
  - vm_compute. reflexivity.
  - vm_compute. reflexivity.
  - reflexivity.
Defined.

(** X10. Without an object under the prefix the sensor fails and the run
    does nothing: no task after it is tried and the staged rows, the findings,
    the fact store and the aggregates are left as they were. *)
Theorem empty_prefix_fails_sensor (e : Env) (w : World) :
  list_blobs GCS_ORDER_PREFIX (upload (arrivals e T_check_new_files) (bucket w)) = [] →
  (run e w).2 T_check_new_files = Some failed
  ∧ (run e w).2 T_load_to_staging = Some upstream_failed
  ∧ staging (run e w).1 = staging w
  ∧ findings (run e w).1 = findings w
  ∧ facts (run e w).1 = facts w
  ∧ aggregates (run e w).1 = aggregates w
  ∧ ∀ t, t ∈ [T_check_duplicates; T_check_amount_mismatch; T_transform_to_fact;
              T_update_hourly_agg; T_archive_files] →
         (run e w).2 t = Some upstream_failed.
Proof.
  intros Hempty.
  assert ((run e w).2 T_check_new_files = Some failed) as Hsensor.
  { rewrite run_sensor_state. unfold check_new_files. by rewrite Hempty. }
  assert ((run e w).2 T_load_to_staging = Some upstream_failed) as Hload.
  { destruct ((run e w).2 T_load_to_staging) as [[| |]|] eqn:Hst; [| |done|].
    - assert ((run e w).2 T_check_new_files = Some success); [|congruence].
      apply (run_tried e w T_load_to_staging); [congruence|left].
    - assert ((run e w).2 T_check_new_files = Some success); [|congruence].
      apply (run_tried e w T_load_to_staging); [congruence|left].
    - destruct (run_state_some e w T_load_to_staging) as [x Hx]. congruence. }
  split; [done|]. split; [done|]. apply run_not_loaded. congruence.
Qed.

Lemma empty_prefix_fails_sensor_witness :
  let w := Sample.world {["archive/20231231_100000/orders/orders_0.json" :=
                            Sample.file [Sample.O1]]} [Sample.O6] in
  (run Sample.env w).2 T_check_new_files = Some failed
  ∧ (run Sample.env w).2 T_load_to_staging = Some upstream_failed
  ∧ staging (run Sample.env w).1 = staging w
  ∧ findings (run Sample.env w).1 = findings w
  ∧ facts (run Sample.env w).1 = facts w
  ∧ aggregates (run Sample.env w).1 = aggregates w
  ∧ ∀ t, t ∈ [T_check_duplicates; T_check_amount_mismatch; T_transform_to_fact;
              T_update_hourly_agg; T_archive_files] →
         (run Sample.env w).2 t = Some upstream_failed.
Proof.
  intros w. apply (empty_prefix_fails_sensor Sample.env w). vm_compute. reflexivity.
Defined.

(** X11. A run only appends: the staged rows, the findings and the fact rows
    it started from are still there, in the same order, at the head of the
    tables it leaves, and the dimension tables are not written. *)
Theorem run_appends_only (e : Env) (w : World) :
  staging w `prefix_of` staging (run e w).1
  ∧ findings w `prefix_of` findings (run e w).1
  ∧ facts w `prefix_of` facts (run e w).1
  ∧ customers (run e w).1 = customers w
  ∧ products (run e w).1 = products w.
Proof.
  destruct (run_tasks_extend e schedule (w, λ _, None)) as (Hs & Hq & Hf).
  destruct (run_tasks_dims e schedule (w, λ _, None)) as (Hc & Hp).
  done.
Qed.

(** X12. The trigger rule of the DAG: every task ends in a state, and a task
    is tried (it succeeds or fails, instead of being [upstream_failed])
    exactly when every task upstream of it succeeded. *)
Theorem run_respects_dependencies (e : Env) (w : World) (t : task) :
  is_Some ((run e w).2 t)
  ∧ ((run e w).2 t ≠ Some upstream_failed ↔
     ∀ u, u ∈ upstream t → (run e w).2 u = Some success).
Proof.
  split; [apply run_state_some|]. split.
  - intros Htried u Hu. by apply (run_tried e w t).
  - apply run_tried_conv.
Qed.





(** X15. The load job and the archiver go by the same names: on one bucket,
    the objects that the archiver renames (listed under the prefix, with a
    name ending in [.json]) are the objects of the load set. *)
Theorem archiver_selects_load_set (b : Bucket) :
  filter (λ nb, Py.endswith nb.1 ".json" = true) (list_blobs GCS_ORDER_PREFIX b)
  = load_set b.
Proof.
  unfold list_blobs, load_set. rewrite list_filter_filter.
  apply list_filter_iff. intros [n v]. cbn [fst]. rewrite source_objects_iff. tauto.
Qed.

(** X16. What the archiver leaves under the landing prefix. An object whose
    name does not end in [.json] is untouched, whether the renames are
    served or raise. The callable returns exactly when the service serves
    the rename of every [.json] object under the prefix; and when it
    returns, every [.json] object is gone from the prefix. *)
Theorem archive_files_outcome (timestamp : string) (service : string → rename_outcome)
    (b : Bucket) (k : string) :
  Py.startswith k GCS_ORDER_PREFIX = true →
  (Py.endswith k ".json" = false → (archive_files timestamp service b).1 !! k = b !! k)
  ∧ ((archive_files timestamp service b).2 = true
     ↔ ∀ n, is_Some (b !! n) → Py.startswith n GCS_ORDER_PREFIX = true →
            Py.endswith n ".json" = true → service n = renamed)
  ∧ ((archive_files timestamp service b).2 = true →
     (archive_files timestamp service b).1 !! k
     = if Py.endswith k ".json" then None else b !! k).
Proof.
  intros Hk.
  assert (Py.endswith k ".json" = false →
          (archive_files timestamp service b).1 !! k = b !! k) as Hkeep.
  { intros Hjson. unfold archive_files. apply archive_loop_other; [|done..].
    intros [n v] Hnb. by apply list_blobs_elem in Hnb as [_ ?]. }
  split; [done|]. split; [apply archive_files_returns|].
  intros Hret. destruct (Py.endswith k ".json") eqn:Hjson; [|by apply Hkeep].
  by apply archive_files_clears.
Qed.

Lemma archive_files_outcome_witness :
  let b : Bucket :=
    <["landing/orders/_SUCCESS" := {| records := None |}]>
      {["landing/orders/orders_1.json" := Sample.file [Sample.O1]]} in
  let service := λ n : string,
    if decide (n = "landing/orders/orders_1.json") then copy_raises else renamed in
  let k := "landing/orders/_SUCCESS" in
  (Py.endswith k ".json" = false
   → (archive_files "20240101_100000" service b).1 !! k = b !! k)
  ∧ ((archive_files "20240101_100000" service b).2 = true
     ↔ ∀ n, is_Some (b !! n) → Py.startswith n GCS_ORDER_PREFIX = true →
            Py.endswith n ".json" = true → service n = renamed)
  ∧ ((archive_files "20240101_100000" service b).2 = true →
     (archive_files "20240101_100000" service b).1 !! k
     = if Py.endswith k ".json" then None else b !! k).
Proof.
  intros b service k. apply (archive_files_outcome "20240101_100000" service b k).
  reflexivity.
Defined.


